(** * Attendance core: rotating QR tokens, geofence, attendance marking

    A shallow embedding of the server store ([MemStorage]), of the HTTP
    handlers of [server/routes.ts] that touch it, and of the client-side
    pieces that decide what is submitted (the QR generator, the geofence
    hook and the scanner), followed by the properties they have.

    Conventions of the embedding:
    - a [Date] is its epoch value in milliseconds, a [Z]; [new Date()] and
      [Date.now()] are read from an explicit clock argument;
    - [randomUUID()] is an explicit argument of the operation that calls it;
    - a JavaScript [Map] is an association list in insertion order
      ([JsMap]), because [Array.from(map.values())] exposes that order;
    - an optional or nullable field is an [option];
    - a JavaScript [number] holding a coordinate is a binary64 [float]. *)

From Stdlib Require Import List String Ascii ZArith Lia Bool.
From Stdlib Require Import PrimFloat FloatAxioms SpecFloat FloatOps.
From Stdlib Require Import DecimalString DecimalZ.
Import ListNotations.

Local Open Scope string_scope.
Local Open Scope Z_scope.

#[local] Set Warnings "-inexact-float".

(* ================================================================== *)
(** ** JavaScript [Map] with string keys *)

Module JsMap.

Definition t (V : Type) : Type := list (string * V).

Definition empty {V : Type} : t V := [].

Fixpoint get {V : Type} (k : string) (m : t V) : option V :=
  match m with
  | [] => None
  | (k', v) :: m' => if String.eqb k k' then Some v else get k m'
  end.

(** [Map.prototype.set]: an existing key keeps its position, a new key
    goes last. *)
Fixpoint set {V : Type} (k : string) (v : V) (m : t V) : t V :=
  match m with
  | [] => [(k, v)]
  | (k', v') :: m' =>
      if String.eqb k k' then (k, v) :: m' else (k', v') :: set k v m'
  end.

Fixpoint delete {V : Type} (k : string) (m : t V) : t V :=
  match m with
  | [] => []
  | (k', v') :: m' =>
      if String.eqb k k' then m' else (k', v') :: delete k m'
  end.

Definition values {V : Type} (m : t V) : list V := map snd m.

Definition entries {V : Type} (m : t V) : list (string * V) := m.

End JsMap.

(* ================================================================== *)
(** ** JavaScript values *)

(** [ToBoolean] of a number: false for [+0], [-0] and [NaN]. *)
Definition Number_truthy (x : float) : bool :=
  negb (PrimFloat.eqb x 0 || PrimFloat.is_nan x).

(** A value as a JSON request body can carry it in a field that the
    code only tests for truth: null, a boolean, a number, a string, or an
    object or array. *)
Inductive JsValue : Type :=
| JsNull
| JsBool (b : bool)
| JsNumber (x : float)
| JsString (s : string)
| JsObject.

Definition ToBoolean (v : JsValue) : bool :=
  match v with
  | JsNull => false
  | JsBool b => b
  | JsNumber x => Number_truthy x
  | JsString s => negb (String.eqb s "")
  | JsObject => true
  end.

(* ================================================================== *)
(** ** The schema (shared/schema.ts) *)

Inductive AttendanceStatus : Type := present | absent | manual.

Inductive GeofencingStatus : Type := inside | outside | unknown.

Module Session.
Record t : Type := mk {
  id : string;
  facultyId : string;
  semester : Z;
  branch : string;
  subject : string;
  isActive : JsValue;
  geofencingEnabled : bool;
  createdAt : Z;
  endedAt : option Z
}.
End Session.

Module InsertSession.
Record t : Type := mk {
  facultyId : string;
  semester : Z;
  branch : string;
  subject : string;
  isActive : option bool;
  geofencingEnabled : option bool
}.
End InsertSession.

(** [Partial<Session>]: every field may be missing; [endedAt] is
    nullable on top of that.  The PATCH route hands the request body over
    unvalidated, so [isActive] is whatever value the body carries; it is
    stored as it comes and read for its truth only. *)
Module PartialSession.
Record t : Type := mk {
  id : option string;
  facultyId : option string;
  semester : option Z;
  branch : option string;
  subject : option string;
  isActive : option JsValue;
  geofencingEnabled : option bool;
  createdAt : option Z;
  endedAt : option (option Z)
}.
End PartialSession.

Module QRToken.
Record t : Type := mk {
  id : string;
  sessionId : string;
  token : string;
  expiresAt : Z;
  createdAt : Z
}.
End QRToken.

Module InsertQRToken.
Record t : Type := mk {
  sessionId : string;
  token : string;
  expiresAt : Z
}.
End InsertQRToken.

Module Attendance.
Record t : Type := mk {
  id : string;
  sessionId : string;
  studentId : string;
  status : AttendanceStatus;
  geofencingStatus : GeofencingStatus;
  latitude : option string;
  longitude : option string;
  markedBy : option string;
  createdAt : Z
}.
End Attendance.

Module InsertAttendance.
Record t : Type := mk {
  sessionId : string;
  studentId : string;
  status : AttendanceStatus;
  geofencingStatus : option GeofencingStatus;
  latitude : option string;
  longitude : option string;
  markedBy : option string
}.
End InsertAttendance.

(** [a ?? b] *)
Definition nullish {A : Type} (a : option A) (b : A) : A :=
  match a with Some x => x | None => b end.

(* ================================================================== *)
(** ** server/storage.ts: [MemStorage] *)

Module MemStorage.

Record t : Type := mk {
  sessions : JsMap.t Session.t;
  attendance : JsMap.t Attendance.t;
  qrTokens : JsMap.t QRToken.t
}.

(** The constructor. *)
Definition new : t := mk JsMap.empty JsMap.empty JsMap.empty.

Definition getSession (id : string) (st : t) : option Session.t :=
  JsMap.get id (sessions st).

Definition getActiveSessions (facultyId : string) (st : t) : list Session.t :=
  filter (fun session =>
            String.eqb (Session.facultyId session) facultyId
            && ToBoolean (Session.isActive session))
         (JsMap.values (sessions st)).

Definition createSession (uuid : string) (now : Z)
           (insertSession : InsertSession.t) (st : t) : Session.t * t :=
  let session :=
    Session.mk uuid
      (InsertSession.facultyId insertSession)
      (InsertSession.semester insertSession)
      (InsertSession.branch insertSession)
      (InsertSession.subject insertSession)
      (JsBool true)
      (nullish (InsertSession.geofencingEnabled insertSession) true)
      now
      None in
  (session,
   mk (JsMap.set uuid session (sessions st)) (attendance st) (qrTokens st)).

(** [{ ...session, ...updates }]: a field present in [updates] wins. *)
Definition spread (session : Session.t) (updates : PartialSession.t)
  : Session.t :=
  Session.mk
    (nullish (PartialSession.id updates) (Session.id session))
    (nullish (PartialSession.facultyId updates) (Session.facultyId session))
    (nullish (PartialSession.semester updates) (Session.semester session))
    (nullish (PartialSession.branch updates) (Session.branch session))
    (nullish (PartialSession.subject updates) (Session.subject session))
    (nullish (PartialSession.isActive updates) (Session.isActive session))
    (nullish (PartialSession.geofencingEnabled updates)
             (Session.geofencingEnabled session))
    (nullish (PartialSession.createdAt updates) (Session.createdAt session))
    (nullish (PartialSession.endedAt updates) (Session.endedAt session)).

Definition updateSession (id : string) (updates : PartialSession.t) (st : t)
  : t :=
  match JsMap.get id (sessions st) with
  | Some session =>
      mk (JsMap.set id (spread session updates) (sessions st))
         (attendance st) (qrTokens st)
  | None => st
  end.

Definition getAttendance (sessionId : string) (st : t) : list Attendance.t :=
  filter (fun record => String.eqb (Attendance.sessionId record) sessionId)
         (JsMap.values (attendance st)).

Definition getStudentAttendance (studentId : string) (st : t)
  : list Attendance.t :=
  filter (fun record => String.eqb (Attendance.studentId record) studentId)
         (JsMap.values (attendance st)).

Definition createAttendance (uuid : string) (now : Z)
           (insertAttendance : InsertAttendance.t) (st : t)
  : Attendance.t * t :=
  let record :=
    Attendance.mk uuid
      (InsertAttendance.sessionId insertAttendance)
      (InsertAttendance.studentId insertAttendance)
      (InsertAttendance.status insertAttendance)
      (nullish (InsertAttendance.geofencingStatus insertAttendance) unknown)
      (InsertAttendance.latitude insertAttendance)
      (InsertAttendance.longitude insertAttendance)
      (InsertAttendance.markedBy insertAttendance)
      now in
  (record,
   mk (sessions st) (JsMap.set uuid record (attendance st)) (qrTokens st)).

(** [t.token === token && t.expiresAt > new Date()] *)
Definition tokenLive (now : Z) (token : string) (t : QRToken.t) : bool :=
  String.eqb (QRToken.token t) token && (now <? QRToken.expiresAt t).

Definition getValidToken (now : Z) (token : string) (st : t)
  : option QRToken.t :=
  find (tokenLive now token) (JsMap.values (qrTokens st)).

Definition createQRToken (uuid : string) (now : Z)
           (insertQRToken : InsertQRToken.t) (st : t) : QRToken.t * t :=
  let qrToken :=
    QRToken.mk uuid
      (InsertQRToken.sessionId insertQRToken)
      (InsertQRToken.token insertQRToken)
      (InsertQRToken.expiresAt insertQRToken)
      now in
  (qrToken,
   mk (sessions st) (attendance st) (JsMap.set uuid qrToken (qrTokens st))).

Definition cleanupExpiredTokens (now : Z) (st : t) : t :=
  mk (sessions st) (attendance st)
     (fold_left
        (fun m entry =>
           if QRToken.expiresAt (snd entry) <=? now
           then JsMap.delete (fst entry) m else m)
        (JsMap.entries (qrTokens st)) (qrTokens st)).

End MemStorage.

(* ================================================================== *)
(** ** server/routes.ts: the handlers that reach the store *)

Module Routes.

(** The fields the verification handler reads from [req.body].
    [geofencingStatus] is [None] for a missing, null or empty value,
    the cases [geofencingStatus || "unknown"] replaces. *)
Module VerifyBody.
Record t : Type := mk {
  sessionId : string;
  token : string;
  studentId : string;
  latitude : option string;
  longitude : option string;
  geofencingStatus : option GeofencingStatus
}.
End VerifyBody.

Inductive VerifyResponse : Type :=
| Marked (attendance : Attendance.t)   (* 200, "Attendance marked successfully" *)
| InvalidToken                         (* 400, "Invalid or expired QR code" *)
| DuplicateAttendance.                 (* 400, "Attendance already marked for this session" *)

(** [a || b] on an optional status *)
Definition orElse (a : option GeofencingStatus) (b : GeofencingStatus)
  : GeofencingStatus :=
  match a with Some x => x | None => b end.

(** POST /api/verify-qr.  [now] is the clock read inside
    [getValidToken]; [uuid] and [now'] are the identifier and the clock
    read inside [createAttendance]. *)
Definition verify_qr (now : Z) (uuid : string) (now' : Z)
           (body : VerifyBody.t) (st : MemStorage.t)
  : VerifyResponse * MemStorage.t :=
  match MemStorage.getValidToken now (VerifyBody.token body) st with
  | None => (InvalidToken, st)
  | Some qrToken =>
      if negb (String.eqb (QRToken.sessionId qrToken)
                          (VerifyBody.sessionId body))
      then (InvalidToken, st)
      else
        let existingAttendance :=
          MemStorage.getAttendance (VerifyBody.sessionId body) st in
        let alreadyMarked :=
          find (fun record =>
                  String.eqb (Attendance.studentId record)
                             (VerifyBody.studentId body))
               existingAttendance in
        match alreadyMarked with
        | Some _ => (DuplicateAttendance, st)
        | None =>
            let (attendance, st') :=
              MemStorage.createAttendance uuid now'
                (InsertAttendance.mk
                   (VerifyBody.sessionId body)
                   (VerifyBody.studentId body)
                   present
                   (Some (orElse (VerifyBody.geofencingStatus body) unknown))
                   (VerifyBody.latitude body)
                   (VerifyBody.longitude body)
                   None)
                st in
            (Marked attendance, st')
        end
  end.

(** POST /api/attendance, on a body the insert schema accepts. *)
Definition post_attendance (uuid : string) (now : Z)
           (attendanceData : InsertAttendance.t) (st : MemStorage.t)
  : Attendance.t * MemStorage.t :=
  MemStorage.createAttendance uuid now attendanceData st.

(** POST /api/sessions, on a body the insert schema accepts. *)
Definition post_session (uuid : string) (now : Z)
           (sessionData : InsertSession.t) (st : MemStorage.t)
  : Session.t * MemStorage.t :=
  MemStorage.createSession uuid now sessionData st.

(** PATCH /api/sessions/:id: the body goes to the store unvalidated. *)
Definition patch_session (id : string) (updates : PartialSession.t)
           (st : MemStorage.t) : MemStorage.t :=
  MemStorage.updateSession id updates st.

(** POST /api/qr-tokens, on a body the insert schema accepts. *)
Definition post_qr_token (uuid : string) (now : Z)
           (tokenData : InsertQRToken.t) (st : MemStorage.t)
  : QRToken.t * MemStorage.t :=
  MemStorage.createQRToken uuid now tokenData st.

(** DELETE /api/qr-tokens/cleanup *)
Definition cleanup_tokens (now : Z) (st : MemStorage.t) : MemStorage.t :=
  MemStorage.cleanupExpiredTokens now st.

(** The requests that change the store, each with the values its
    handler draws from the environment. *)
Inductive Request : Type :=
| PostSession (uuid : string) (now : Z) (sessionData : InsertSession.t)
| PatchSession (id : string) (updates : PartialSession.t)
| PostAttendance (uuid : string) (now : Z) (attendanceData : InsertAttendance.t)
| PostQRToken (uuid : string) (now : Z) (tokenData : InsertQRToken.t)
| CleanupTokens (now : Z)
| VerifyQR (now : Z) (uuid : string) (now' : Z) (body : VerifyBody.t).

Definition handle (st : MemStorage.t) (r : Request) : MemStorage.t :=
  match r with
  | PostSession uuid now d => snd (post_session uuid now d st)
  | PatchSession id u => patch_session id u st
  | PostAttendance uuid now d => snd (post_attendance uuid now d st)
  | PostQRToken uuid now d => snd (post_qr_token uuid now d st)
  | CleanupTokens now => cleanup_tokens now st
  | VerifyQR now uuid now' b => snd (verify_qr now uuid now' b st)
  end.

(** Requests served one after the other, in arrival order. *)
Definition serve (rs : list Request) (st : MemStorage.t) : MemStorage.t :=
  fold_left handle rs st.

(** The states of the store of a freshly started server. *)
Definition reachable (st : MemStorage.t) : Prop :=
  exists rs, serve rs MemStorage.new = st.

(** Verification requests served in arrival order, with their
    responses. *)
Fixpoint serve_verify
         (rs : list (Z * string * Z * VerifyBody.t)) (st : MemStorage.t)
  : list VerifyResponse * MemStorage.t :=
  match rs with
  | [] => ([], st)
  | (now, uuid, now', body) :: rs' =>
      let (resp, st') := verify_qr now uuid now' body st in
      let (resps, st'') := serve_verify rs' st' in
      (resp :: resps, st'')
  end.

(** *** The verification handler, one [await] at a time

    The handler is an [async] function: it runs up to an [await], gives
    control back, and is resumed later.  The store methods it awaits have
    no [await] of their own, so each call runs to its end when it is made;
    what the handler holds while suspended is the value the call
    returned. *)

Record Pending : Type := mkPending {
  p_now : Z;                 (* clock read in [getValidToken] *)
  p_uuid : string;           (* identifier drawn in [createAttendance] *)
  p_now' : Z;                (* clock read in [createAttendance] *)
  p_body : VerifyBody.t
}.

Inductive Handler : Type :=
| Started (p : Pending)
| AwaitingToken (p : Pending) (qrToken : option QRToken.t)
| AwaitingAttendance (p : Pending) (existingAttendance : list Attendance.t)
| AwaitingCreate (p : Pending) (attendance : Attendance.t)
| Responded (r : VerifyResponse).

(** Run a handler from where it is suspended to its next [await] (or to
    its response). *)
Definition resume (h : Handler) (st : MemStorage.t) : Handler * MemStorage.t :=
  match h with
  | Started p =>
      (AwaitingToken
         p (MemStorage.getValidToken (p_now p) (VerifyBody.token (p_body p)) st),
       st)
  | AwaitingToken p None => (Responded InvalidToken, st)
  | AwaitingToken p (Some qrToken) =>
      if negb (String.eqb (QRToken.sessionId qrToken)
                          (VerifyBody.sessionId (p_body p)))
      then (Responded InvalidToken, st)
      else (AwaitingAttendance
              p (MemStorage.getAttendance (VerifyBody.sessionId (p_body p)) st),
            st)
  | AwaitingAttendance p existingAttendance =>
      match find (fun record =>
                    String.eqb (Attendance.studentId record)
                               (VerifyBody.studentId (p_body p)))
                 existingAttendance with
      | Some _ => (Responded DuplicateAttendance, st)
      | None =>
          let (attendance, st') :=
            MemStorage.createAttendance (p_uuid p) (p_now' p)
              (InsertAttendance.mk
                 (VerifyBody.sessionId (p_body p))
                 (VerifyBody.studentId (p_body p))
                 present
                 (Some (orElse (VerifyBody.geofencingStatus (p_body p)) unknown))
                 (VerifyBody.latitude (p_body p))
                 (VerifyBody.longitude (p_body p))
                 None)
              st in
          (AwaitingCreate p attendance, st')
      end
  | AwaitingCreate p attendance => (Responded (Marked attendance), st)
  | Responded r => (Responded r, st)
  end.

(** Resume the [i]-th of the handlers in flight. *)
Fixpoint resumeAt (i : nat) (hs : list Handler) (st : MemStorage.t)
  : list Handler * MemStorage.t :=
  match hs, i with
  | [], _ => ([], st)
  | h :: hs', O => let (h', st') := resume h st in (h' :: hs', st')
  | h :: hs', S i' => let (hs'', st') := resumeAt i' hs' st in (h :: hs'', st')
  end.

(** A schedule names, turn after turn, the handler that is resumed. *)
Fixpoint runSchedule (schedule : list nat) (hs : list Handler)
         (st : MemStorage.t) : list Handler * MemStorage.t :=
  match schedule with
  | [] => (hs, st)
  | i :: schedule' =>
      let (hs', st') := resumeAt i hs st in runSchedule schedule' hs' st'
  end.

(** A handler resumed without anything in between, to its response. *)
Definition runToResponse (p : Pending) (st : MemStorage.t)
  : Handler * MemStorage.t :=
  let (h1, st1) := resume (Started p) st in
  let (h2, st2) := resume h1 st1 in
  let (h3, st3) := resume h2 st2 in
  resume h3 st3.

End Routes.

(* ================================================================== *)
(** ** The uniqueness invariant of the attendance store *)

Definition samePair (sessionId studentId : string) (record : Attendance.t)
  : bool :=
  String.eqb (Attendance.sessionId record) sessionId
  && String.eqb (Attendance.studentId record) studentId.

(** The records of the store with the given (sessionId, studentId). *)
Definition recordsOf (sessionId studentId : string) (st : MemStorage.t)
  : list Attendance.t :=
  filter (samePair sessionId studentId)
         (JsMap.values (MemStorage.attendance st)).

Definition atMostOnePerPair (st : MemStorage.t) : Prop :=
  forall sessionId studentId,
    (List.length (recordsOf sessionId studentId st) <= 1)%nat.

(* ================================================================== *)
(** ** The JavaScript runtime the client code calls into

    [Math.sin], [Math.cos] and [Math.atan2] are implementation-approximated
    and the digits [Number.prototype.toString] prints for a finite non-zero
    number come from the engine; they are taken from the runtime.
    [Math.sqrt] and the arithmetic operators are the binary64 ones. *)

Class JsRuntime : Type := {
  Math_sin : float -> float;
  Math_cos : float -> float;
  Math_atan2 : float -> float -> float;
  finiteToString : float -> string
}.

(** A runtime to run examples with.  The general results below hold of
    every runtime; this one has the special values and the two properties
    stated after it. *)
Definition exampleRuntime : JsRuntime := {|
  Math_sin := fun x => x;
  Math_cos := fun _ => 1%float;
  Math_atan2 := fun y _ => y;
  finiteToString := fun _ => "#"
|}.

Definition Math_PI : float := 0x1.921fb54442d18p+1%float.

Definition Math_sqrt (x : float) : float := PrimFloat.sqrt x.





(** [Number.prototype.toString] (radix 10): both zeros print as "0". *)
Definition Number_toString `{JsRuntime} (x : float) : string :=
  if PrimFloat.eqb x 0 then "0"
  else if PrimFloat.is_nan x then "NaN"
  else if PrimFloat.is_infinity x
       then (if PrimFloat.ltb x 0 then "-Infinity" else "Infinity")
  else finiteToString x.

(** [ToBoolean] of a [number | null]. *)
Definition Coordinate_truthy (x : option float) : bool :=
  match x with
  | None => false
  | Some v => Number_truthy v
  end.

(** [ToBoolean] of a possibly missing string: false when missing or empty. *)
Definition String_truthy (s : option string) : bool :=
  match s with
  | None => false
  | Some s => negb (String.eqb s "")
  end.

(* ================================================================== *)
(** ** client/src/hooks/useGeolocation.tsx *)

Module Geolocation.

Record GeofenceResult : Type := mkResult {
  isInsideCampus : bool;
  status : GeofencingStatus
}.

(** [CAMPUS_BOUNDARIES] *)
Definition center_lat : float := 12.9716%float.
Definition center_lng : float := 77.5946%float.
Definition radius : float := 1000%float.

Section WithRuntime.
Context `{JsRuntime}.
Local Open Scope float_scope.

Definition calculateDistance (lat1 lon1 lat2 lon2 : float) : float :=
  let R := 6371e3 in
  let phi1 := lat1 * Math_PI / 180 in
  let phi2 := lat2 * Math_PI / 180 in
  let dphi := (lat2 - lat1) * Math_PI / 180 in
  let dlambda := (lon2 - lon1) * Math_PI / 180 in
  let a := Math_sin (dphi / 2) * Math_sin (dphi / 2) +
           Math_cos phi1 * Math_cos phi2 *
           Math_sin (dlambda / 2) * Math_sin (dlambda / 2) in
  let c := 2 * Math_atan2 (Math_sqrt a) (Math_sqrt (1 - a)) in
  R * c.


(** Nothing in the [try] block throws, so the [catch] branch (status
    unknown) is never taken. *)
Definition checkGeofence (lat lng : float) : GeofenceResult :=
  let distance := calculateDistance lat lng center_lat center_lng in
  let isInsideCampus := distance <=? radius in
  mkResult isInsideCampus (if isInsideCampus then inside else outside).

End WithRuntime.

End Geolocation.

(* ================================================================== *)
(** ** client/src/lib/firebase.ts: the attendance collection *)

Module Firebase.

Module AttendanceData.
Record t : Type := mk {
  sessionId : string;
  studentId : string;
  status : AttendanceStatus;
  geofencingStatus : GeofencingStatus;
  latitude : option string;
  longitude : option string;
  markedBy : option string
}.
End AttendanceData.

(** A stored document: [{ ...attendanceData, createdAt }]. *)
Module AttendanceDoc.
Record t : Type := mk {
  data : AttendanceData.t;
  createdAt : Z
}.
End AttendanceDoc.

Definition Collection : Type := JsMap.t AttendanceDoc.t.

(** [docId] is the identifier [doc(attendanceCollection)] generates. *)
Definition markAttendance (docId : string) (now : Z)
           (attendanceData : AttendanceData.t) (coll : Collection)
  : string * Collection :=
  (docId, JsMap.set docId (AttendanceDoc.mk attendanceData now) coll).

Definition getSessionAttendance (sessionId : string) (coll : Collection)
  : list (string * AttendanceDoc.t) :=
  filter (fun d =>
            String.eqb (AttendanceData.sessionId (AttendanceDoc.data (snd d)))
                       sessionId)
         (JsMap.entries coll).

End Firebase.

(* ================================================================== *)
(** ** client/src/components/faculty/LiveStats.tsx *)

Module LiveStats.

(** The form accepts the actions present and absent. *)
Record ManualAttendanceForm : Type := mkForm {
  studentId : string;
  action : AttendanceStatus
}.

Inductive ManualOutcome : Type :=
| AlreadyMarked
| AttendanceUpdated.

(** [attendanceRecords] is the component's copy of the session's
    documents, as last delivered by the subscription. *)
Definition onManualAttendance
           (attendanceRecords : list Firebase.AttendanceDoc.t)
           (sessionId facultyId : string) (data : ManualAttendanceForm)
           (docId : string) (now : Z) (coll : Firebase.Collection)
  : ManualOutcome * Firebase.Collection :=
  match find (fun record =>
                String.eqb (Firebase.AttendanceData.studentId
                              (Firebase.AttendanceDoc.data record))
                           (studentId data))
             attendanceRecords with
  | Some _ => (AlreadyMarked, coll)
  | None =>
      (AttendanceUpdated,
       snd (Firebase.markAttendance docId now
              (Firebase.AttendanceData.mk
                 sessionId (studentId data) (action data) unknown
                 None None (Some facultyId))
              coll))
  end.

End LiveStats.

(* ================================================================== *)
(** ** client/src/components/student/QRScanner.tsx *)

Module QRScanner.

(** The fields [processQRCode] reads from [JSON.parse(qrData)]. *)
Module ParsedData.
Record t : Type := mk {
  sessionId : option string;
  token : option string
}.
End ParsedData.

Inductive Outcome : Type :=
| ScanFailed                                   (* the [catch] branch *)
| Submitted (attendanceData : Firebase.AttendanceData.t).

Section WithRuntime.
Context `{JsRuntime}.

(** The geofence guard: [if (latitude && longitude)]. *)
Definition scanGeofencingStatus (latitude longitude : option float)
  : GeofencingStatus :=
  if Coordinate_truthy latitude && Coordinate_truthy longitude then
    match latitude, longitude with
    | Some lat, Some lng =>
        Geolocation.status (Geolocation.checkGeofence lat lng)
    | _, _ => unknown
    end
  else unknown.

(** [processQRCode] up to the call of [markAttendance]: the data it
    submits.  [parsed] is [None] when [JSON.parse] throws. *)
Definition processQRCode (studentId : string)
           (latitude longitude : option float)
           (parsed : option ParsedData.t) : Outcome :=
  match parsed with
  | None => ScanFailed
  | Some parsedData =>
      if negb (String_truthy (ParsedData.sessionId parsedData))
         || negb (String_truthy (ParsedData.token parsedData))
      then ScanFailed
      else
        let geofencingStatus := scanGeofencingStatus latitude longitude in
        Submitted
          (Firebase.AttendanceData.mk
             (nullish (ParsedData.sessionId parsedData) "")
             studentId
             present
             geofencingStatus
             (option_map Number_toString latitude)
             (option_map Number_toString longitude)
             None)
  end.

End WithRuntime.

End QRScanner.

(* ================================================================== *)
(** ** client/src/components/faculty/QRGenerator.tsx *)

Module QRGenerator.

Record SessionData : Type := mkData {
  subject : string;
  semester : Z;
  branch : string
}.

(** [\s] on ASCII text: tab, line feed, vertical tab, form feed,
    carriage return and space.  The white space JavaScript knows beyond
    ASCII (U+00A0 and others) is outside this byte-string model; what is
    said below about white space is said of ASCII subjects. *)
Definition isWhiteSpace (c : ascii) : bool :=
  let n := nat_of_ascii c in
  ((9 <=? n) && (n <=? 13) || (n =? 32))%nat.

(** [s.replace(/\s+/g, '')] *)
Fixpoint removeWhiteSpace (s : string) : string :=
  match s with
  | EmptyString => EmptyString
  | String c s' =>
      if isWhiteSpace c then removeWhiteSpace s'
      else String c (removeWhiteSpace s')
  end.

(** An integer [number] inside a template literal. *)
Definition integerToString (n : Z) : string :=
  NilZero.string_of_int (Z.to_int n).

(** [timestamp] is the value of [Date.now()]. *)
Definition generateQRToken (timestamp : Z) (sessionData : SessionData)
  : string :=
  "TK_" ++ integerToString timestamp ++ "_"
        ++ removeWhiteSpace (subject sessionData) ++ "_"
        ++ branch sessionData ++ "_S"
        ++ integerToString (semester sessionData).

(** The period of the refresh [setInterval], in milliseconds. *)
Definition refreshInterval : Z := 2000.

(** The token of the [n]-th run of [updateQR], when that run reads
    [clock n] from [Date.now()]. *)
Definition issuedToken (clock : nat -> Z) (sessionData : SessionData)
           (n : nat) : string :=
  generateQRToken (clock n) sessionData.

End QRGenerator.

(* ================================================================== *)
(** ** client/src/pages/FacultyDashboard.tsx *)

Module FacultyDashboard.

(** The update [handleEndSession] sends:
    [{ isActive: false, endedAt: new Date() }]. *)
Definition endSessionUpdate (now : Z) : PartialSession.t :=
  PartialSession.mk None None None None None (Some (JsBool false)) None None
                    (Some (Some now)).

End FacultyDashboard.

(* ================================================================== *)
(** ** Vocabulary of the token and session properties *)

(** The verification handler let the token through. *)
Definition tokenValidated (r : Routes.VerifyResponse) : bool :=
  match r with
  | Routes.InvalidToken => false
  | _ => true
  end.

(** Some stored token has the submitted string, belongs to the requested
    session and has not expired at [now]. *)
Definition matchingToken (now : Z) (sessionId token : string)
           (st : MemStorage.t) : Prop :=
  exists t,
    In t (JsMap.values (MemStorage.qrTokens st))
    /\ QRToken.token t = token
    /\ QRToken.sessionId t = sessionId
    /\ now < QRToken.expiresAt t.

(** What the schema declares of the [token] column ([unique()]); the
    in-memory store does not enforce it. *)
Definition uniqueTokenStrings (st : MemStorage.t) : Prop :=
  NoDup (map QRToken.token (JsMap.values (MemStorage.qrTokens st))).

(** The lifetime of a stored token is the rotation interval. *)
Definition livesOneInterval (t : QRToken.t) : Prop :=
  QRToken.expiresAt t - QRToken.createdAt t = QRGenerator.refreshInterval.

(* ================================================================== *)
(** ** server/storage.ts: the users of [MemStorage]

    The [users] map is touched by the user methods only and by no other
    method of the class; it is kept here as a store of its own. *)

Inductive Role : Type := faculty | student.

Module User.
Record t : Type := mk {
  id : string;
  email : option string;
  phoneNumber : option string;
  role : Role;
  name : string;
  semester : option Z;
  branch : option string;
  createdAt : Z
}.
End User.

Module InsertUser.
Record t : Type := mk {
  email : option string;
  phoneNumber : option string;
  role : Role;
  name : string;
  semester : option Z;
  branch : option string
}.
End InsertUser.

Module UserStore.

Definition t : Type := JsMap.t User.t.

Definition getUser (id : string) (users : t) : option User.t :=
  JsMap.get id users.

(** [user.email === email], on a nullable column. *)
Definition hasEmail (email : string) (user : User.t) : bool :=
  match User.email user with
  | Some e => String.eqb e email
  | None => false
  end.

Definition hasPhone (phone : string) (user : User.t) : bool :=
  match User.phoneNumber user with
  | Some p => String.eqb p phone
  | None => false
  end.

Definition getUserByEmail (email : string) (users : t) : option User.t :=
  find (hasEmail email) (JsMap.values users).

Definition getUserByPhone (phone : string) (users : t) : option User.t :=
  find (hasPhone phone) (JsMap.values users).

Definition createUser (uuid : string) (now : Z) (insertUser : InsertUser.t)
           (users : t) : User.t * t :=
  let user :=
    User.mk uuid
      (InsertUser.email insertUser)
      (InsertUser.phoneNumber insertUser)
      (InsertUser.role insertUser)
      (InsertUser.name insertUser)
      (InsertUser.semester insertUser)
      (InsertUser.branch insertUser)
      now in
  (user, JsMap.set uuid user users).

End UserStore.

(* ================================================================== *)
(** ** Shape of the maps of the store *)

(** The keys of a map are pairwise distinct. *)
Definition keysUnique {V : Type} (m : JsMap.t V) : Prop :=
  NoDup (map fst m).

(** Every record sits under its own identifier. *)
Definition keyedById {V : Type} (id : V -> string) (m : JsMap.t V) : Prop :=
  Forall (fun e => id (snd e) = fst e) (JsMap.entries m).

Definition wellKeyed (st : MemStorage.t) : Prop :=
  keysUnique (MemStorage.sessions st)
  /\ keysUnique (MemStorage.attendance st)
  /\ keysUnique (MemStorage.qrTokens st)
  /\ keyedById Attendance.id (MemStorage.attendance st)
  /\ keyedById QRToken.id (MemStorage.qrTokens st).

(** A token is unexpired at [now]. *)
Definition unexpired (now : Z) (t : QRToken.t) : bool :=
  now <? QRToken.expiresAt t.

(* ================================================================== *)
(** ** client/src/components/faculty/QRGenerator.tsx: the countdown *)

Module Countdown.

(** The two timers of the effect. *)
Inductive Tick : Type :=
| Refresh       (* every 2000 ms: [setTimeLeft(2)] *)
| Second.       (* every 1000 ms: [prev <= 1 ? 2 : prev - 1] *)

(** [useState<number>(2)] *)
Definition initial : Z := 2.

Definition onTick (timeLeft : Z) (tick : Tick) : Z :=
  match tick with
  | Refresh => 2
  | Second => if timeLeft <=? 1 then 2 else timeLeft - 1
  end.

Definition run (ticks : list Tick) : Z := fold_left onTick ticks initial.

End Countdown.

(* ================================================================== *)
(** ** The faculty dashboard: the session clock

    [diff] is [new Date().getTime() - start.getTime()], an integer number
    of milliseconds.  For integers of that size the quotient the division
    returns has the same floor as the exact quotient, so [Math.floor(a / b)]
    is the floored integer division; [%] is the remainder that takes the
    sign of the dividend. *)

Module SessionClock.

(** [s.padStart(2, '0')] *)
Definition padStart2 (s : string) : string :=
  match String.length s with
  | O => "00"
  | S O => "0" ++ s
  | _ => s
  end.

Definition hours (diff : Z) : Z := diff / (1000 * 60 * 60).

Definition minutes (diff : Z) : Z :=
  Z.rem diff (1000 * 60 * 60) / (1000 * 60).

Definition sessionDuration (diff : Z) : string :=
  padStart2 (QRGenerator.integerToString (hours diff)) ++ ":"
  ++ padStart2 (QRGenerator.integerToString (minutes diff)).

End SessionClock.

(* ================================================================== *)
(** ** client/src/components/faculty/LiveStats.tsx: the counters *)

Module LiveCounters.

Definition isPresent (record : Firebase.AttendanceDoc.t) : bool :=
  match Firebase.AttendanceData.status (Firebase.AttendanceDoc.data record) with
  | present => true
  | _ => false
  end.

Definition isOutside (record : Firebase.AttendanceDoc.t) : bool :=
  match Firebase.AttendanceData.geofencingStatus
          (Firebase.AttendanceDoc.data record) with
  | outside => true
  | _ => false
  end.

Definition presentCount (attendanceRecords : list Firebase.AttendanceDoc.t)
  : nat :=
  List.length (filter isPresent attendanceRecords).

Definition outsideCampusCount
           (attendanceRecords : list Firebase.AttendanceDoc.t) : nat :=
  List.length (filter (fun record => isPresent record && isOutside record)
                      attendanceRecords).

End LiveCounters.

(* ================================================================== *)
(** ** client/src/hooks/useGeolocation.tsx: the location state *)

Module GeolocationState.

Record t : Type := mk {
  latitude : option float;
  longitude : option float;
  accuracy : option float;
  error : option string;
  loading : bool
}.

(** The initial state of the hook. *)
Definition initial : t := mk None None None None true.

(** How a position request ends: with the coordinates of the position,
    or with the message derived from the error. *)
Inductive Outcome : Type :=
| Position (latitude longitude accuracy : float)
| Failure (message : string).

(** [requestLocation]: the update made before the request, then the one
    made when it ends. *)
Definition requestLocation (outcome : Outcome) (prev : t) : t :=
  let pending :=
    mk (latitude prev) (longitude prev) (accuracy prev) None true in
  match outcome with
  | Position lat lng acc => mk (Some lat) (Some lng) (Some acc) None false
  | Failure message =>
      mk (latitude pending) (longitude pending) (accuracy pending)
         (Some message) false
  end.

Definition requests (outcomes : list Outcome) (s : t) : t :=
  fold_left (fun s o => requestLocation o s) outcomes s.

(** The position of the last request that succeeded, if any. *)
Fixpoint lastPosition (outcomes : list Outcome) (acc : option (float * float))
  : option (float * float) :=
  match outcomes with
  | [] => acc
  | Position lat lng _ :: rest => lastPosition rest (Some (lat, lng))
  | Failure _ :: rest => lastPosition rest acc
  end.

End GeolocationState.

(* ================================================================== *)
(** ** Manual entries in the attendance collection *)

(** The documents of the collection for the given session and student. *)
Definition documentsOf (sessionId studentId : string)
           (coll : Firebase.Collection) : list (string * Firebase.AttendanceDoc.t) :=
  filter (fun d =>
            String.eqb (Firebase.AttendanceData.studentId
                          (Firebase.AttendanceDoc.data (snd d)))
                       studentId)
         (Firebase.getSessionAttendance sessionId coll).

(* ================================================================== *)
(** ** Verification handlers resumed in turn *)

(** One round: every handler in flight is resumed once, in order. *)
Fixpoint resumeAll (hs : list Routes.Handler) (st : MemStorage.t)
  : list Routes.Handler * MemStorage.t :=
  match hs with
  | [] => ([], st)
  | h :: hs' =>
      let (h', st1) := Routes.resume h st in
      let (hs'', st2) := resumeAll hs' st1 in
      (h' :: hs'', st2)
  end.

(** The schedule that resumes [n] handlers in turn, once for each of the
    four stretches of the handler. *)
Definition roundRobin (n : nat) : list nat :=
  (seq 0 n ++ seq 0 n ++ seq 0 n ++ seq 0 n)%list.

(** The record the handler creates for a request. *)
Definition markedRecord (p : Routes.Pending) : Attendance.t :=
  Attendance.mk
    (Routes.p_uuid p)
    (Routes.VerifyBody.sessionId (Routes.p_body p))
    (Routes.VerifyBody.studentId (Routes.p_body p))
    present
    (Routes.orElse (Routes.VerifyBody.geofencingStatus (Routes.p_body p))
                   unknown)
    (Routes.VerifyBody.latitude (Routes.p_body p))
    (Routes.VerifyBody.longitude (Routes.p_body p))
    None
    (Routes.p_now' p).

(* ================================================================== *)
(** ** Requests that draw unused identifiers *)

(** The identifier the request draws for an attendance record, if it
    draws one, is not yet a key of the attendance map. *)
Definition drawsFreshId (r : Routes.Request) (st : MemStorage.t) : Prop :=
  match r with
  | Routes.PostAttendance uuid _ _ | Routes.VerifyQR _ uuid _ _ =>
      JsMap.get uuid (MemStorage.attendance st) = None
  | _ => True
  end.

Fixpoint allDrawFreshIds (rs : list Routes.Request) (st : MemStorage.t)
  : Prop :=
  match rs with
  | [] => True
  | r :: rs' => drawsFreshId r st /\ allDrawFreshIds rs' (Routes.handle st r)
  end.

(* ================================================================== *)
(** ** ASCII text *)


(* ================================================================== *)
(** * Properties *)

(** ** Facts about [JsMap] *)

Lemma JsMap_set_values_In {V : Type} (k : string) (v : V) (m : JsMap.t V) :
  In v (JsMap.values (JsMap.set k v m)).
Proof.
  induction m as [|[k' v'] m IH]; simpl.
  - now left.
  - destruct (String.eqb k k'); simpl; auto.
Qed.

(** Setting a key adds at most the new value to any filtered view. *)
Lemma JsMap_set_filter_length {V : Type} (p : V -> bool) k v (m : JsMap.t V) :
  (List.length (filter p (JsMap.values (JsMap.set k v m)))
   <= List.length (filter p (JsMap.values m)) + (if p v then 1 else 0))%nat.
Proof.
  induction m as [|[k' v'] m IH]; simpl.
  - destruct (p v); simpl; lia.
  - destruct (String.eqb k k'); simpl.
    + destruct (p v), (p v'); simpl; lia.
    + destruct (p v'); simpl; lia.
Qed.

Lemma JsMap_set_filter_length_ge {V : Type} (p : V -> bool) k v (m : JsMap.t V) :
  p v = true ->
  (1 <= List.length (filter p (JsMap.values (JsMap.set k v m))))%nat.
Proof.
  intros Hp.
  pose proof (JsMap_set_values_In k v m) as Hin.
  assert (Hf : In v (filter p (JsMap.values (JsMap.set k v m))))
    by (apply filter_In; auto).
  destruct (filter p (JsMap.values (JsMap.set k v m))); simpl in *;
    [contradiction | lia].
Qed.

(** ** The duplicate check of the verification handler *)

(** The handler's two-stage search (records of the session, then the
    student among them) finds nothing exactly when no record has the
    pair. *)
Lemma alreadyMarked_None_iff sessionId studentId st :
  find (fun record => String.eqb (Attendance.studentId record) studentId)
       (MemStorage.getAttendance sessionId st) = None
  <-> recordsOf sessionId studentId st = [].
Proof.
  unfold MemStorage.getAttendance, recordsOf.
  induction (JsMap.values (MemStorage.attendance st)) as [|r l IH]; simpl.
  - tauto.
  - unfold samePair at 1.
    destruct (String.eqb (Attendance.sessionId r) sessionId); simpl.
    + destruct (String.eqb (Attendance.studentId r) studentId); simpl.
      * split; discriminate.
      * exact IH.
    + exact IH.
Qed.

Lemma verify_qr_tokens_unchanged now uuid now' body st :
  MemStorage.qrTokens (snd (Routes.verify_qr now uuid now' body st))
  = MemStorage.qrTokens st.
Proof.
  unfold Routes.verify_qr.
  destruct (MemStorage.getValidToken _ _ _); [|reflexivity].
  destruct (negb _); [reflexivity|].
  destruct (find _ _); reflexivity.
Qed.

(** What a verification request does to the store, case by case. *)
Lemma verify_qr_cases now uuid now' body st :
  let sid := Routes.VerifyBody.sessionId body in
  let uid := Routes.VerifyBody.studentId body in
  match Routes.verify_qr now uuid now' body st with
  | (Routes.Marked a, st') =>
      recordsOf sid uid st = []
      /\ Attendance.sessionId a = sid /\ Attendance.studentId a = uid
      /\ MemStorage.attendance st'
         = JsMap.set uuid a (MemStorage.attendance st)
      /\ (exists t, MemStorage.getValidToken now
                      (Routes.VerifyBody.token body) st = Some t
                    /\ QRToken.sessionId t = sid)
  | (Routes.DuplicateAttendance, st') =>
      st' = st /\ recordsOf sid uid st <> []
  | (Routes.InvalidToken, st') => st' = st
  end.
Proof.
  intros sid uid. unfold Routes.verify_qr.
  destruct (MemStorage.getValidToken _ _ _) as [t|] eqn:Ht; [|reflexivity].
  destruct (String.eqb (QRToken.sessionId t) _) eqn:Hs; simpl; [|reflexivity].
  destruct (find _ _) eqn:Hf.
  - split; [reflexivity|].
    intros Hnil. apply alreadyMarked_None_iff in Hnil.
    fold sid uid in Hf. congruence.
  - apply alreadyMarked_None_iff in Hf. simpl.
    repeat split; auto.
    exists t. split; [reflexivity | now apply String.eqb_eq].
Qed.

(** The verification handler keeps the store free of duplicates. *)
Lemma verify_qr_preserves_atMostOnePerPair now uuid now' body st :
  atMostOnePerPair st ->
  atMostOnePerPair (snd (Routes.verify_qr now uuid now' body st)).
Proof.
  intros Hinv.
  pose proof (verify_qr_cases now uuid now' body st) as Hc. simpl in Hc.
  destruct (Routes.verify_qr now uuid now' body st) as [[a| |] st']; simpl.
  - destruct Hc as (Hnil & Hsid & Huid & Hatt & _).
    intros sid uid. unfold recordsOf. rewrite Hatt.
    pose proof (JsMap_set_filter_length (samePair sid uid) uuid a
                  (MemStorage.attendance st)) as Hle.
    destruct (samePair sid uid a) eqn:Hp.
    + unfold samePair in Hp. apply andb_true_iff in Hp as [H1 H2].
      apply String.eqb_eq in H1, H2. subst sid uid.
      unfold recordsOf in Hnil. rewrite <- Hsid, <- Huid in Hnil.
      rewrite Hnil in Hle. simpl in Hle. exact Hle.
    + specialize (Hinv sid uid). unfold recordsOf in Hinv. lia.
  - now subst st'.
  - destruct Hc as [-> _]. exact Hinv.
Qed.

(** The handlers other than direct attendance creation leave the
    invariant alone. *)
Lemma handle_preserves_atMostOnePerPair st r :
  (forall uuid now d, r <> Routes.PostAttendance uuid now d) ->
  atMostOnePerPair st -> atMostOnePerPair (Routes.handle st r).
Proof.
  intros Hr Hinv. destruct r; simpl.
  - exact Hinv.
  - unfold Routes.patch_session, MemStorage.updateSession.
    destruct (JsMap.get _ _); exact Hinv.
  - exfalso. eapply Hr. reflexivity.
  - exact Hinv.
  - exact Hinv.
  - now apply verify_qr_preserves_atMostOnePerPair.
Qed.

(** X10.  Requests served one after the other, none of them a direct
    attendance creation, take a store with at most one record per
    (sessionId, studentId) to a store with at most one record per pair. *)
Lemma serve_preserves_atMostOnePerPair rs :
  forall st,
    (forall r uuid now d, In r rs -> r <> Routes.PostAttendance uuid now d) ->
    atMostOnePerPair st -> atMostOnePerPair (Routes.serve rs st).
Proof.
  induction rs as [|r rs IH]; intros st Hrs Hinv; simpl.
  - exact Hinv.
  - apply IH.
    + intros r' uuid now d Hin. apply Hrs. now right.
    + apply handle_preserves_atMostOnePerPair; [|exact Hinv].
      intros uuid now d. apply Hrs. now left.
Qed.

Lemma atMostOnePerPair_new : atMostOnePerPair MemStorage.new.
Proof. intros sid uid. simpl. lia. Qed.

(** C1 (the part the code breaks).  Two direct attendance creations
    (POST /api/attendance) with the same (sessionId, studentId) are both
    stored: the state they reach from the empty store holds two records
    for the pair, so the at-most-one invariant does not hold in every
    reachable state.  The verification handler, by contrast, preserves
    it ([verify_qr_preserves_atMostOnePerPair]). *)
Theorem direct_creation_duplicates_pair :
  let d := InsertAttendance.mk "s1" "u1" present None None None None in
  let st := Routes.serve [Routes.PostAttendance "id-1" 1000 d;
                          Routes.PostAttendance "id-2" 2000 d]
                         MemStorage.new in
  Routes.reachable st
  /\ atMostOnePerPair MemStorage.new
  /\ List.length (recordsOf "s1" "u1" st) = 2%nat
  /\ ~ atMostOnePerPair st.
Proof.
  intros d st. split; [|split; [|split]].
  - eexists. reflexivity.
  - exact atMostOnePerPair_new.
  - reflexivity.
  - intros Hinv. specialize (Hinv "s1" "u1").
    change (List.length (recordsOf "s1" "u1" st)) with 2%nat in Hinv. lia.
Qed.

(** ** Verification requests for one pair, served in arrival order *)

(** Once the pair is marked, every further request for it is answered
    as a duplicate and leaves the store alone. *)
Lemma serve_verify_all_duplicates sid uid :
  forall rs st,
    (forall now uuid now' body, In (now, uuid, now', body) rs ->
       Routes.VerifyBody.sessionId body = sid
       /\ Routes.VerifyBody.studentId body = uid
       /\ exists t, MemStorage.getValidToken now
                      (Routes.VerifyBody.token body) st = Some t
                    /\ QRToken.sessionId t = sid) ->
    recordsOf sid uid st <> [] ->
    Routes.serve_verify rs st
    = (repeat Routes.DuplicateAttendance (List.length rs), st).
Proof.
  induction rs as [|[[[now uuid] now'] body] rs IH]; intros st Hrs Hne; simpl.
  - reflexivity.
  - destruct (Hrs now uuid now' body (or_introl eq_refl))
      as (Hsid & Huid & t & Ht & Hts).
    assert (Hv : Routes.verify_qr now uuid now' body st
                 = (Routes.DuplicateAttendance, st)).
    { unfold Routes.verify_qr. rewrite Ht, Hts, Hsid, String.eqb_refl. simpl.
      destruct (find _ _) eqn:Hf; [reflexivity|].
      rewrite Huid in Hf. apply alreadyMarked_None_iff in Hf. contradiction. }
    rewrite Hv, (IH st); [reflexivity| |exact Hne].
    intros n u n' b Hin. apply (Hrs n u n' b). now right.
Qed.

(** X9.  Served one after the other, any number of verification requests for
    a pair not yet marked, each carrying a token that is live for the
    session when it is checked, yields one success (the first to arrive)
    and duplicates for all the others, and leaves one record for the
    pair. *)
Lemma serve_verify_first_wins sid uid r rs st :
  (forall now uuid now' body, In (now, uuid, now', body) (r :: rs) ->
     Routes.VerifyBody.sessionId body = sid
     /\ Routes.VerifyBody.studentId body = uid
     /\ exists t, MemStorage.getValidToken now
                    (Routes.VerifyBody.token body) st = Some t
                  /\ QRToken.sessionId t = sid) ->
  recordsOf sid uid st = [] ->
  exists a st',
    Routes.serve_verify (r :: rs) st
    = (Routes.Marked a :: repeat Routes.DuplicateAttendance (List.length rs),
       st')
    /\ List.length (recordsOf sid uid st') = 1%nat.
Proof.
  intros Hrs Hnil. destruct r as [[[now uuid] now'] body].
  destruct (Hrs now uuid now' body (or_introl eq_refl))
    as (Hsid & Huid & t & Ht & Hts).
  pose proof (verify_qr_cases now uuid now' body st) as Hc.
  pose proof (verify_qr_tokens_unchanged now uuid now' body st) as Htok.
  simpl in Hc. simpl.
  destruct (Routes.verify_qr now uuid now' body st) as [resp st1] eqn:Hv.
  assert (Hresp : exists a, resp = Routes.Marked a).
  { unfold Routes.verify_qr in Hv.
    rewrite Ht, Hts, Hsid, String.eqb_refl in Hv. simpl in Hv.
    rewrite Huid in Hv.
    apply alreadyMarked_None_iff in Hnil. rewrite Hnil in Hv.
    inversion Hv. eauto. }
  destruct Hresp as [a ->]. simpl in Htok.
  destruct Hc as (_ & Hasid & Hauid & Hatt & _).
  rewrite Hsid in Hasid. rewrite Huid in Hauid.
  assert (Hp : samePair sid uid a = true).
  { unfold samePair. rewrite Hasid, Hauid, !String.eqb_refl. reflexivity. }
  assert (Hone : List.length (recordsOf sid uid st1) = 1%nat).
  { unfold recordsOf. rewrite Hatt.
    pose proof (JsMap_set_filter_length (samePair sid uid) uuid a
                  (MemStorage.attendance st)) as Hle.
    pose proof (JsMap_set_filter_length_ge (samePair sid uid) uuid a
                  (MemStorage.attendance st) Hp) as Hge.
    unfold recordsOf in Hnil. rewrite Hnil, Hp in Hle. simpl in Hle. lia. }
  exists a, st1. split; [|exact Hone].
  rewrite (serve_verify_all_duplicates sid uid rs st1); [reflexivity| |].
  - intros n u n' b Hin.
    destruct (Hrs n u n' b (or_intror Hin)) as (H1 & H2 & t' & Ht' & Hts').
    repeat split; auto. exists t'. split; [|exact Hts'].
    unfold MemStorage.getValidToken in *. rewrite Htok. exact Ht'.
  - intros Hn. rewrite Hn in Hone. discriminate.
Qed.

(** ** Verification requests in flight together *)

(** Resumed four times in a row, a handler has done what [verify_qr]
    does in one go. *)
Lemma runToResponse_verify_qr p st :
  Routes.runToResponse p st
  = (Routes.Responded
       (fst (Routes.verify_qr (Routes.p_now p) (Routes.p_uuid p)
                              (Routes.p_now' p) (Routes.p_body p) st)),
     snd (Routes.verify_qr (Routes.p_now p) (Routes.p_uuid p)
                           (Routes.p_now' p) (Routes.p_body p) st)).
Proof.
  unfold Routes.runToResponse, Routes.verify_qr. simpl.
  destruct (MemStorage.getValidToken _ _ _) as [t|]; simpl; [|reflexivity].
  destruct (negb _); simpl; [reflexivity|].
  destruct (find _ _); reflexivity.
Qed.

(** C2 (the failing run).  Two verification requests for the same
    (sessionId, studentId), with a live token of the session, are in
    flight together and are resumed in turn at each of their awaits:
    both read the attendance of the session before either has written,
    both pass the duplicate check, both are answered with success, and
    the store ends with two records for the pair.  The same two requests
    resumed one after the other give one success and one duplicate. *)
Theorem interleaved_verifications_both_marked :
  let st := snd (Routes.post_qr_token "k1" 0 (InsertQRToken.mk "A" "TK" 2000)
                   MemStorage.new) in
  let body := Routes.VerifyBody.mk "A" "TK" "u1" None None None in
  let hs := [Routes.Started (Routes.mkPending 100 "id-1" 101 body);
             Routes.Started (Routes.mkPending 100 "id-2" 101 body)] in
  let turns := Routes.runSchedule [0; 1; 0; 1; 0; 1; 0; 1]%nat hs st in
  let inOrder := Routes.runSchedule [0; 0; 0; 0; 1; 1; 1; 1]%nat hs st in
  (exists a1 a2,
      fst turns = [Routes.Responded (Routes.Marked a1);
                   Routes.Responded (Routes.Marked a2)])
  /\ List.length (recordsOf "A" "u1" (snd turns)) = 2%nat
  /\ ~ atMostOnePerPair (snd turns)
  /\ (exists a1,
         fst inOrder = [Routes.Responded (Routes.Marked a1);
                        Routes.Responded Routes.DuplicateAttendance])
  /\ List.length (recordsOf "A" "u1" (snd inOrder)) = 1%nat.
Proof.
  intros st body hs turns inOrder.
  split; [do 2 eexists; reflexivity|].
  split; [reflexivity|].
  split.
  - intros Hinv. specialize (Hinv "A" "u1").
    change (List.length (recordsOf "A" "u1" (snd turns))) with 2%nat in Hinv.
    lia.
  - split; [eexists; reflexivity | reflexivity].
Qed.

(** ** The client's own writes *)

(** The scanner writes without looking: the same scan processed twice
    stores two documents for the pair. *)
Lemma scan_twice_stores_two_documents :
  let parsed := Some (QRScanner.ParsedData.mk (Some "s1") (Some "TK")) in
  match QRScanner.processQRCode (H := exampleRuntime) "u1" None None parsed with
  | QRScanner.Submitted data =>
      let c1 := snd (Firebase.markAttendance "d1" 10 data JsMap.empty) in
      let c2 := snd (Firebase.markAttendance "d2" 20 data c1) in
      List.length
        (filter (fun d => String.eqb (Firebase.AttendanceData.studentId
                                        (Firebase.AttendanceDoc.data (snd d)))
                                     "u1")
                (Firebase.getSessionAttendance "s1" c2)) = 2%nat
  | QRScanner.ScanFailed => False
  end.
Proof. reflexivity. Qed.

(** The manual entry of the specification's scenario: no prior record,
    the faculty marks the student absent; one document is stored, with
    status absent, geofencingStatus unknown and the faculty as marker.
    With the document in its copy of the records, the same entry is
    refused. *)
Lemma manual_entry_scenario :
  let form := LiveStats.mkForm "u1" absent in
  let first := LiveStats.onManualAttendance [] "A" "f1" form "d1" 10
                                            JsMap.empty in
  let doc := Firebase.AttendanceDoc.mk
               (Firebase.AttendanceData.mk "A" "u1" absent unknown
                                           None None (Some "f1")) 10 in
  first = (LiveStats.AttendanceUpdated, [("d1", doc)])
  /\ LiveStats.onManualAttendance [doc] "A" "f1" form "d2" 20 (snd first)
     = (LiveStats.AlreadyMarked, snd first).
Proof. split; reflexivity. Qed.

(** ** Token validation *)

Lemma NoDup_map_eq {A B : Type} (f : A -> B) (l : list A) x y :
  NoDup (map f l) -> In x l -> In y l -> f x = f y -> x = y.
Proof.
  induction l as [|a l IH]; simpl; intros Hnd Hx Hy Hxy; [contradiction|].
  inversion Hnd as [|? ? Hnotin Hnd']; subst.
  destruct Hx as [->|Hx], Hy as [->|Hy]; auto.
  - exfalso. apply Hnotin. rewrite Hxy. now apply in_map.
  - exfalso. apply Hnotin. rewrite <- Hxy. now apply in_map.
Qed.

(** The handler lets the token through exactly when the lookup returns a
    token of the requested session. *)
Lemma tokenValidated_iff_lookup now uuid now' body st :
  tokenValidated (fst (Routes.verify_qr now uuid now' body st)) = true
  <-> exists t,
        MemStorage.getValidToken now (Routes.VerifyBody.token body) st = Some t
        /\ QRToken.sessionId t = Routes.VerifyBody.sessionId body.
Proof.
  unfold Routes.verify_qr.
  destruct (MemStorage.getValidToken _ _ _) as [t|]; simpl.
  - destruct (String.eqb (QRToken.sessionId t) _) eqn:Hs; simpl.
    + destruct (find _ _); simpl; split; auto; intros _;
        exists t; (split; [reflexivity | now apply String.eqb_eq]).
    + split; [discriminate|]. intros (t' & Ht' & Hs').
      injection Ht' as ->. apply String.eqb_neq in Hs. contradiction.
  - split; [discriminate|]. intros (t & Ht & _). discriminate.
Qed.

Lemma getValidToken_Some now token st t :
  MemStorage.getValidToken now token st = Some t ->
  In t (JsMap.values (MemStorage.qrTokens st))
  /\ QRToken.token t = token /\ now < QRToken.expiresAt t.
Proof.
  unfold MemStorage.getValidToken. intros Hf.
  apply find_some in Hf as [Hin Hlive].
  unfold MemStorage.tokenLive in Hlive.
  apply andb_true_iff in Hlive as [H1 H2].
  apply String.eqb_eq in H1. apply Z.ltb_lt in H2. auto.
Qed.

(** C3 (as stated, refuted).  Two stored tokens carry the same string,
    the first for session A, the second for session B, both unexpired.
    A token with the submitted string, the requested session B and a
    later expiry is stored, yet validation against B answers Invalid:
    the lookup stops at the first live token with that string. *)
Lemma same_string_token_hides_later_session :
  let st := Routes.serve
              [Routes.PostQRToken "k1" 0 (InsertQRToken.mk "A" "TK" 5000);
               Routes.PostQRToken "k2" 0 (InsertQRToken.mk "B" "TK" 5000)]
              MemStorage.new in
  let body := Routes.VerifyBody.mk "B" "TK" "u1" None None None in
  let answer := fst (Routes.verify_qr 1000 "r1" 1000 body st) in
  matchingToken 1000 "B" "TK" st
  /\ answer = Routes.InvalidToken
  /\ ~ (tokenValidated answer = true <-> matchingToken 1000 "B" "TK" st).
Proof.
  intros st body answer.
  assert (Hm : matchingToken 1000 "B" "TK" st).
  { exists (QRToken.mk "k2" "B" "TK" 5000 0). simpl.
    repeat split; auto; lia. }
  split; [exact Hm|]. split; [reflexivity|].
  intros [_ H]. specialize (H Hm). discriminate H.
Qed.

(** C3 (amended).  A token that validation lets through is a stored
    token with the submitted string, the requested session and an expiry
    strictly after the current time: no token validates against another
    session, none at or after its expiry.  Conversely, when the stored
    token strings are pairwise distinct, the presence of such a token
    makes validation succeed.  In every store, validation succeeds
    exactly when the first stored live token with the submitted string
    belongs to the requested session. *)
Theorem token_validation_characterised now uuid now' body st :
  let sid := Routes.VerifyBody.sessionId body in
  let tok := Routes.VerifyBody.token body in
  let answer := fst (Routes.verify_qr now uuid now' body st) in
  (tokenValidated answer = true -> matchingToken now sid tok st)
  /\ (uniqueTokenStrings st ->
      matchingToken now sid tok st -> tokenValidated answer = true)
  /\ (tokenValidated answer = true <->
      exists t,
        find (MemStorage.tokenLive now tok)
             (JsMap.values (MemStorage.qrTokens st)) = Some t
        /\ QRToken.sessionId t = sid).
Proof.
  intros sid tok answer. split; [|split].
  - intros Hv. apply tokenValidated_iff_lookup in Hv as (t & Ht & Hs).
    apply getValidToken_Some in Ht as (Hin & Htok & Hexp).
    exists t. auto.
  - intros Huniq (t & Hin & Htok & Hs & Hexp).
    apply tokenValidated_iff_lookup.
    destruct (MemStorage.getValidToken now tok st) as [t'|] eqn:Hf.
    + exists t'. split; [exact Hf|].
      apply getValidToken_Some in Hf as (Hin' & Htok' & _).
      assert (t' = t) as ->; [|exact Hs].
      eapply NoDup_map_eq; eauto. congruence.
    + exfalso. unfold MemStorage.getValidToken in Hf.
      eapply find_none in Hf; [|exact Hin].
      unfold MemStorage.tokenLive in Hf.
      rewrite Htok, String.eqb_refl in Hf. simpl in Hf.
      apply Z.ltb_ge in Hf. lia.
  - apply tokenValidated_iff_lookup.
Qed.

Lemma token_validation_characterised_witness :
  let st := Routes.serve
              [Routes.PostQRToken "k1" 0 (InsertQRToken.mk "A" "TK1" 2000);
               Routes.PostQRToken "k2" 0 (InsertQRToken.mk "B" "TK2" 2000)]
              MemStorage.new in
  let body := Routes.VerifyBody.mk "B" "TK2" "u1" None None None in
  tokenValidated (fst (Routes.verify_qr 1999 "r1" 1999 body st)) = true.
Proof.
  intros st body.
  apply (proj1 (proj2 (token_validation_characterised 1999 "r1" 1999 body st))).
  - unfold uniqueTokenStrings. simpl.
    constructor; [|constructor; [|constructor]]; simpl.
    + intros [H|[]]. discriminate H.
    + intros [].
  - exists (QRToken.mk "k2" "B" "TK2" 2000 0). simpl.
    repeat split; auto.
Defined.

(** Token expiry, on the scenario of the specification: issued at 0 with
    a lifetime of 2000 ms, a token validates at 1999 ms and is rejected
    at 2000 ms and at 2001 ms. *)
Lemma token_expiry_scenario :
  let st := snd (Routes.post_qr_token "k1" 0 (InsertQRToken.mk "A" "TK" 2000)
                   MemStorage.new) in
  let body := Routes.VerifyBody.mk "A" "TK" "u1" None None None in
  tokenValidated (fst (Routes.verify_qr 1999 "r" 1999 body st)) = true
  /\ tokenValidated (fst (Routes.verify_qr 2000 "r" 2000 body st)) = false
  /\ tokenValidated (fst (Routes.verify_qr 2001 "r" 2001 body st)) = false.
Proof. repeat split. Qed.

(** ** Token lifetime *)

Lemma JsMap_set_Forall {V : Type} (P : V -> Prop) k v (m : JsMap.t V) :
  P v -> Forall P (JsMap.values m) -> Forall P (JsMap.values (JsMap.set k v m)).
Proof.
  intros Hv. induction m as [|[k' v'] m IH]; simpl; intros Hm.
  - constructor; auto.
  - inversion Hm; subst. destruct (String.eqb k k'); simpl; constructor; auto.
Qed.

Lemma JsMap_delete_Forall {V : Type} (P : V -> Prop) k (m : JsMap.t V) :
  Forall P (JsMap.values m) -> Forall P (JsMap.values (JsMap.delete k m)).
Proof.
  induction m as [|[k' v'] m IH]; simpl; intros Hm; [constructor|].
  inversion Hm; subst. destruct (String.eqb k k'); simpl; auto.
Qed.

Lemma cleanupExpiredTokens_Forall (P : QRToken.t -> Prop) now st :
  Forall P (JsMap.values (MemStorage.qrTokens st)) ->
  Forall P (JsMap.values
              (MemStorage.qrTokens (MemStorage.cleanupExpiredTokens now st))).
Proof.
  unfold MemStorage.cleanupExpiredTokens. simpl.
  generalize (JsMap.entries (MemStorage.qrTokens st)) as es.
  generalize (MemStorage.qrTokens st) as m.
  intros m es. revert m.
  induction es as [|e es IH]; simpl; intros m Hm; [exact Hm|].
  apply IH. destruct (QRToken.expiresAt (snd e) <=? now); auto.
  now apply JsMap_delete_Forall.
Qed.

(** The store keeps what it is given: the record carries the supplied
    expiry and the creation time, so its lifetime is the rotation
    interval exactly when the supplied expiry is the creation time plus
    that interval. *)
Lemma createQRToken_lifetime uuid now d st :
  let q := fst (MemStorage.createQRToken uuid now d st) in
  QRToken.expiresAt q = InsertQRToken.expiresAt d
  /\ QRToken.createdAt q = now
  /\ (livesOneInterval q
      <-> InsertQRToken.expiresAt d = now + QRGenerator.refreshInterval).
Proof.
  simpl. unfold livesOneInterval. simpl. repeat split; intros; lia.
Qed.

(** C5 (as stated, refuted).  The token route stores a record whose
    expiry is one minute after its creation. *)
Lemma token_with_one_minute_lifetime :
  let q := fst (Routes.post_qr_token "k1" 5000
                  (InsertQRToken.mk "A" "TK" 65000) MemStorage.new) in
  QRToken.expiresAt q - QRToken.createdAt q = 60000
  /\ ~ livesOneInterval q.
Proof.
  split; [reflexivity|]. unfold livesOneInterval. simpl.
  unfold QRGenerator.refreshInterval. lia.
Qed.

(** C5 (amended).  When every token creation request supplies an expiry
    equal to its creation time plus the rotation interval (2000 ms),
    every token in the store has expiresAt - createdAt = 2000 ms, in
    every state the server reaches. *)
Theorem stored_tokens_live_one_interval rs :
  (forall uuid now d,
      In (Routes.PostQRToken uuid now d) rs ->
      InsertQRToken.expiresAt d = now + QRGenerator.refreshInterval) ->
  forall t,
    In t (JsMap.values (MemStorage.qrTokens (Routes.serve rs MemStorage.new))) ->
    QRToken.expiresAt t - QRToken.createdAt t = 2000.
Proof.
  intros Hrs.
  assert (Hall : forall st,
             Forall livesOneInterval (JsMap.values (MemStorage.qrTokens st)) ->
             Forall livesOneInterval
                    (JsMap.values (MemStorage.qrTokens (Routes.serve rs st)))).
  { induction rs as [|r rs IH]; intros st Hst; simpl; [exact Hst|].
    apply IH.
    - intros uuid now d Hin. apply (Hrs uuid). now right.
    - destruct r as [u n d|i u|u n d|u n d|n|n u n' b]; simpl; try exact Hst.
      + unfold Routes.patch_session, MemStorage.updateSession.
        destruct (JsMap.get _ _); exact Hst.
      + apply JsMap_set_Forall; [|exact Hst].
        apply (proj2 (proj2 (createQRToken_lifetime u n d st))).
        apply (Hrs u). now left.
      + now apply cleanupExpiredTokens_Forall.
      + rewrite verify_qr_tokens_unchanged. exact Hst. }
  intros t Hin.
  specialize (Hall MemStorage.new (Forall_nil _)).
  rewrite Forall_forall in Hall. exact (Hall t Hin).
Qed.

Lemma stored_tokens_live_one_interval_witness :
  QRToken.expiresAt (QRToken.mk "k2" "A" "TK2" 4000 2000)
  - QRToken.createdAt (QRToken.mk "k2" "A" "TK2" 4000 2000) = 2000.
Proof.
  apply (stored_tokens_live_one_interval
           [Routes.PostQRToken "k1" 0 (InsertQRToken.mk "A" "TK1" 2000);
            Routes.PostQRToken "k2" 2000 (InsertQRToken.mk "A" "TK2" 4000)]).
  - intros uuid now d [H|[H|[]]]; injection H as <- <- <-; reflexivity.
  - simpl. right. left. reflexivity.
Defined.

(** ** Session state *)

Lemma JsMap_get_set_same {V : Type} k (v : V) (m : JsMap.t V) :
  JsMap.get k (JsMap.set k v m) = Some v.
Proof.
  induction m as [|[k' v'] m IH]; simpl.
  - now rewrite String.eqb_refl.
  - destruct (String.eqb k k') eqn:Hk; simpl; rewrite ?Hk; auto.
    now rewrite String.eqb_refl.
Qed.

Lemma JsMap_get_set_other {V : Type} k k' (v : V) (m : JsMap.t V) :
  k <> k' -> JsMap.get k (JsMap.set k' v m) = JsMap.get k m.
Proof.
  intros Hne. apply String.eqb_neq in Hne.
  induction m as [|[k'' v''] m IH]; simpl.
  - now rewrite Hne.
  - destruct (String.eqb k' k'') eqn:Hk; simpl.
    + apply String.eqb_eq in Hk. subst k''. now rewrite Hne.
    + destruct (String.eqb k k''); auto.
Qed.

(** One PATCH, seen from a session [id] that exists: the session is
    still there, replaced by the merge when the request addresses it. *)
Lemma patch_session_getSession id id' u st s :
  MemStorage.getSession id st = Some s ->
  MemStorage.getSession id (Routes.patch_session id' u st)
  = Some (if String.eqb id id' then MemStorage.spread s u else s).
Proof.
  unfold MemStorage.getSession, Routes.patch_session, MemStorage.updateSession.
  intros Hs. destruct (String.eqb id id') eqn:Hid.
  - apply String.eqb_eq in Hid. subst id'. rewrite Hs. simpl.
    apply JsMap_get_set_same.
  - apply String.eqb_neq in Hid.
    destruct (JsMap.get id' (MemStorage.sessions st)); simpl; auto.
    now rewrite JsMap_get_set_other.
Qed.

(** What a request does to a stored session. *)
Lemma handle_getSession id st s r :
  MemStorage.getSession id st = Some s ->
  (forall uuid now d, r = Routes.PostSession uuid now d -> uuid <> id) ->
  MemStorage.getSession id (Routes.handle st r)
  = Some match r with
         | Routes.PatchSession id' u =>
             if String.eqb id id' then MemStorage.spread s u else s
         | _ => s
         end.
Proof.
  intros Hs Hpost.
  destruct r as [u n d|i u|u n d|u n d|n|n u n' b]; simpl; try exact Hs.
  - unfold MemStorage.getSession. simpl.
    rewrite JsMap_get_set_other; [exact Hs|].
    intros Heq. now apply (Hpost u n d eq_refl).
  - now apply patch_session_getSession.
  - unfold MemStorage.getSession, Routes.verify_qr.
    destruct (MemStorage.getValidToken _ _ _); [|exact Hs].
    destruct (negb _); [exact Hs|].
    destruct (find _ _); exact Hs.
Qed.

(** C6 (as stated, refuted).  A session is created, ended at time 10,
    then PATCHed with isActive true, then ended again at time 20: after
    the third request it is active again, after the fourth its endedAt
    has changed from 10 to 20.  A PATCH with isActive 1 on the ended
    session lists it among the active sessions again just as well. *)
Lemma ended_session_reactivated_and_reended :
  let d := InsertSession.mk "f1" 3 "CS" "Data Structures" None None in
  let reactivate :=
    PartialSession.mk None None None None None (Some (JsBool true)) None None
                      None in
  let one :=
    PartialSession.mk None None None None None (Some (JsNumber 1)) None None
                      None in
  let st1 := Routes.serve
               [Routes.PostSession "s1" 0 d;
                Routes.PatchSession "s1" (FacultyDashboard.endSessionUpdate 10)]
               MemStorage.new in
  let st2 := Routes.handle st1 (Routes.PatchSession "s1" reactivate) in
  let st3 := Routes.handle
               st2 (Routes.PatchSession "s1"
                                        (FacultyDashboard.endSessionUpdate 20)) in
  let st2' := Routes.handle st1 (Routes.PatchSession "s1" one) in
  option_map Session.isActive (MemStorage.getSession "s1" st1)
  = Some (JsBool false)
  /\ MemStorage.getActiveSessions "f1" st1 = []
  /\ option_map Session.endedAt (MemStorage.getSession "s1" st1)
     = Some (Some 10)
  /\ option_map Session.isActive (MemStorage.getSession "s1" st2)
     = Some (JsBool true)
  /\ List.length (MemStorage.getActiveSessions "f1" st2) = 1%nat
  /\ option_map Session.endedAt (MemStorage.getSession "s1" st3)
     = Some (Some 20)
  /\ List.length (MemStorage.getActiveSessions "f1" st2') = 1%nat.
Proof. repeat split. Qed.

(** C6 (amended).  For a session the store holds: the end-session update
    makes it inactive and sets endedAt to the time of the update.  An
    inactive session (isActive not truthy) stays inactive, and off every
    list of active sessions, through any sequence of requests in which no
    update addressed to it carries a truthy isActive and no session is
    created under its id; and its endedAt stays as it is through any
    sequence of requests in which no update addressed to it carries
    endedAt and no session is created under its id.  The store applies
    whatever an update carries. *)
Theorem session_end_is_one_way_under_plain_updates id st s :
  MemStorage.getSession id st = Some s ->
  (forall now,
      exists s',
        MemStorage.getSession
          id (Routes.patch_session id (FacultyDashboard.endSessionUpdate now) st)
        = Some s'
        /\ Session.isActive s' = JsBool false
        /\ ToBoolean (Session.isActive s') = false
        /\ Session.endedAt s' = Some now)
  /\ (forall rs,
         (forall u v, In (Routes.PatchSession id u) rs ->
                      PartialSession.isActive u = Some v ->
                      ToBoolean v = false) ->
         (forall uuid now d, In (Routes.PostSession uuid now d) rs ->
                             uuid <> id) ->
         ToBoolean (Session.isActive s) = false ->
         exists s',
           MemStorage.getSession id (Routes.serve rs st) = Some s'
           /\ ToBoolean (Session.isActive s') = false
           /\ forall facultyId,
               ~ In s' (MemStorage.getActiveSessions facultyId
                                                     (Routes.serve rs st)))
  /\ (forall rs,
         (forall u, In (Routes.PatchSession id u) rs ->
                    PartialSession.endedAt u = None) ->
         (forall uuid now d, In (Routes.PostSession uuid now d) rs ->
                             uuid <> id) ->
         exists s',
           MemStorage.getSession id (Routes.serve rs st) = Some s'
           /\ Session.endedAt s' = Session.endedAt s).
Proof.
  intros Hs. split; [|split].
  - intros now. eexists. split.
    + rewrite (patch_session_getSession id id _ st s Hs).
      rewrite String.eqb_refl. reflexivity.
    + repeat split.
  - intros rs Hrs Hpost Hina.
    assert (H : exists s',
               MemStorage.getSession id (Routes.serve rs st) = Some s'
               /\ ToBoolean (Session.isActive s') = false).
    { revert st s Hs Hina.
      induction rs as [|r rs IH]; intros st s Hs Hina; simpl; [eauto|].
      apply (IH (fun u v Hin => Hrs u v (or_intror Hin))
                (fun uuid now d Hin => Hpost uuid now d (or_intror Hin))
                _ _ (handle_getSession
                       id st s r Hs
                       (fun uuid now d Heq =>
                          Hpost uuid now d (or_introl Heq)))).
      destruct r as [u n d|i u|u n d|u n d|n|n u n' b]; try exact Hina.
      destruct (String.eqb id i) eqn:Hid; [|exact Hina].
      apply String.eqb_eq in Hid. subst i. simpl.
      destruct (PartialSession.isActive u) as [v|] eqn:Hv; simpl.
      - exact (Hrs u v (or_introl eq_refl) Hv).
      - exact Hina. }
    destruct H as (s' & Hs' & Hina'). exists s'.
    split; [exact Hs'|]. split; [exact Hina'|].
    intros facultyId Hin. unfold MemStorage.getActiveSessions in Hin.
    apply filter_In in Hin as [_ Hact]. rewrite Hina' in Hact.
    rewrite andb_false_r in Hact. discriminate.
  - intros rs. revert st s Hs.
    induction rs as [|r rs IH]; intros st s Hs Hrs Hpost; simpl; [eauto|].
    destruct (IH _ _ (handle_getSession
                        id st s r Hs
                        (fun uuid now d Heq =>
                           Hpost uuid now d (or_introl Heq)))
                 (fun u Hin => Hrs u (or_intror Hin))
                 (fun uuid now d Hin => Hpost uuid now d (or_intror Hin)))
      as (s' & Hs' & He).
    exists s'. split; [exact Hs'|]. rewrite He.
    destruct r as [u n d|i u|u n d|u n d|n|n u n' b]; try reflexivity.
    destruct (String.eqb id i) eqn:Hid; [|reflexivity].
    apply String.eqb_eq in Hid. subst i. simpl.
    now rewrite (Hrs u (or_introl eq_refl)).
Qed.

Lemma session_end_is_one_way_under_plain_updates_witness :
  let created :=
    Session.mk "s1" "f1" 3 "CS" "Data Structures" (JsBool true) true 0 None in
  let ended :=
    Session.mk "s1" "f1" 3 "CS" "Data Structures" (JsBool false) true 0
               (Some 10) in
  let d := InsertSession.mk "f1" 3 "CS" "Data Structures" None None in
  let st0 := snd (Routes.post_session "s1" 0 d MemStorage.new) in
  let st1 := Routes.patch_session "s1" (FacultyDashboard.endSessionUpdate 10)
                                  st0 in
  let rename :=
    PartialSession.mk None None None None (Some "Algorithms") None None None
                      None in
  let zero :=
    PartialSession.mk None None None None None (Some (JsNumber 0)) None None
                      None in
  let reactivate :=
    PartialSession.mk None None None None None (Some (JsBool true)) None None
                      None in
  (exists s',
      MemStorage.getSession "s1" st1 = Some s'
      /\ Session.isActive s' = JsBool false
      /\ ToBoolean (Session.isActive s') = false
      /\ Session.endedAt s' = Some 10)
  /\ (exists s',
         MemStorage.getSession
           "s1" (Routes.serve
                   [Routes.PatchSession "s1" rename;
                    Routes.PostSession "s2" 20 d;
                    Routes.PatchSession "s2" reactivate;
                    Routes.PatchSession "s1" zero;
                    Routes.PatchSession
                      "s1" (FacultyDashboard.endSessionUpdate 30)] st1)
         = Some s'
         /\ ToBoolean (Session.isActive s') = false
         /\ forall facultyId,
             ~ In s' (MemStorage.getActiveSessions
                        facultyId
                        (Routes.serve
                           [Routes.PatchSession "s1" rename;
                            Routes.PostSession "s2" 20 d;
                            Routes.PatchSession "s2" reactivate;
                            Routes.PatchSession "s1" zero;
                            Routes.PatchSession
                              "s1" (FacultyDashboard.endSessionUpdate 30)]
                           st1)))
  /\ (exists s',
         MemStorage.getSession
           "s1" (Routes.serve [Routes.PatchSession "s1" rename;
                               Routes.PatchSession "s2" reactivate;
                               Routes.CleanupTokens 40] st1) = Some s'
         /\ Session.endedAt s' = Session.endedAt ended).
Proof.
  intros created ended d st0 st1 rename zero reactivate. split; [|split].
  - apply (proj1 (session_end_is_one_way_under_plain_updates
                    "s1" st0 created eq_refl)).
  - apply (proj1 (proj2 (session_end_is_one_way_under_plain_updates
                           "s1" st1 ended eq_refl))).
    + intros u v [H | [H | [H | [H | [H | []]]]]]; try discriminate H;
        injection H as <-; simpl; intros [= <-]; reflexivity.
    + intros uuid now d' [H | [H | [H | [H | [H | []]]]]];
        try discriminate H. injection H as <- _ _. discriminate.
    + reflexivity.
  - apply (proj2 (proj2 (session_end_is_one_way_under_plain_updates
                           "s1" st1 ended eq_refl))).
    + intros u [H | [H | [H | []]]]; try discriminate H.
      injection H as <-. reflexivity.
    + intros uuid now d' [H | [H | [H | []]]]; discriminate H.
Defined.

(** ** Token strings *)

Lemma string_length_append (a b : string) :
  String.length (a ++ b) = (String.length a + String.length b)%nat.
Proof. induction a as [|c a IH]; simpl; auto. Qed.

Lemma string_append_inv_tail (a b r : string) : a ++ r = b ++ r -> a = b.
Proof.
  revert b. induction a as [|c a IH]; intros [|c' b] H; simpl in H.
  - reflexivity.
  - apply (f_equal String.length) in H. simpl in H.
    rewrite string_length_append in H. lia.
  - apply (f_equal String.length) in H. simpl in H.
    rewrite string_length_append in H. lia.
  - injection H as -> H. f_equal. now apply IH.
Qed.

Lemma integerToString_inj a b :
  QRGenerator.integerToString a = QRGenerator.integerToString b -> a = b.
Proof.
  unfold QRGenerator.integerToString. intros H.
  assert (Hnn : forall z, Z.to_int z <> Decimal.Pos Decimal.Nil
                          /\ Z.to_int z <> Decimal.Neg Decimal.Nil).
  { intros [|p|p]; simpl; split; try discriminate;
      intros [= Hp]; now apply (DecimalPos.Unsigned.to_uint_nonnil p). }
  apply (f_equal NilZero.int_of_string) in H.
  rewrite !NilZero.isi in H by apply Hnn.
  injection H as H. now apply DecimalZ.to_int_inj.
Qed.

(** The generator on the data of the scanner's demo code: the token is
    the timestamp and the session's public data, nothing else. *)
Lemma generateQRToken_demo :
  QRGenerator.generateQRToken
    1700000000000 (QRGenerator.mkData "Data Structures" 3 "CS")
  = "TK_1700000000000_DataStructures_CS_S3".
Proof. reflexivity. Qed.

(** C7 (as stated, refuted).  Two runs of the generator for the same
    session that read the same millisecond from the clock issue the same
    token string. *)
Lemma two_issuances_same_millisecond_collide :
  let sessionData := QRGenerator.mkData "Data Structures" 3 "CS" in
  let clock := fun n : nat => 1700000000000 in
  0%nat <> 1%nat
  /\ QRGenerator.issuedToken clock sessionData 0
     = QRGenerator.issuedToken clock sessionData 1
  /\ QRGenerator.issuedToken clock sessionData 0
     = "TK_1700000000000_DataStructures_CS_S3".
Proof. repeat split. discriminate. Qed.

(** C7 (amended).  The token string is a function of the issuance
    timestamp (in milliseconds) and the session's subject, branch and
    semester, with no other component; two issuances for the same
    session produce the same string exactly when their timestamps are
    equal. *)
Theorem generateQRToken_collides_iff_same_timestamp
        (t1 t2 : Z) (sessionData : QRGenerator.SessionData) :
  QRGenerator.generateQRToken t1 sessionData
  = QRGenerator.generateQRToken t2 sessionData
  <-> t1 = t2.
Proof.
  split; [|now intros ->].
  unfold QRGenerator.generateQRToken. intros H.
  simpl in H. injection H as H.
  apply string_append_inv_tail in H.
  now apply integerToString_inj.
Qed.

(** ** Geofence classification *)

(** C4.  With coordinates present, the geofence check computes the
    haversine distance, with Earth radius 6,371,000 m, from the reported
    point to the campus centre (12.9716, 77.5946) and answers inside
    exactly when that distance is at most 1000 m, the bound included,
    and outside in every other case; it never answers unknown. *)
Theorem checkGeofence_inside_iff_within_radius `{JsRuntime} (lat lng : float) :
  let distance :=
    Geolocation.calculateDistance lat lng 12.9716%float 77.5946%float in
  let result := Geolocation.checkGeofence lat lng in
  (forall lat1 lon1 lat2 lon2,
      let phi1 := (lat1 * Math_PI / 180)%float in
      let phi2 := (lat2 * Math_PI / 180)%float in
      let dphi := ((lat2 - lat1) * Math_PI / 180)%float in
      let dlambda := ((lon2 - lon1) * Math_PI / 180)%float in
      let a := (Math_sin (dphi / 2) * Math_sin (dphi / 2)
                + Math_cos phi1 * Math_cos phi2
                  * Math_sin (dlambda / 2) * Math_sin (dlambda / 2))%float in
      Geolocation.calculateDistance lat1 lon1 lat2 lon2
      = (6371000 * (2 * Math_atan2 (Math_sqrt a) (Math_sqrt (1 - a))))%float)
  /\ Geolocation.isInsideCampus result = (distance <=? 1000)%float
  /\ (Geolocation.status result = inside <-> (distance <=? 1000)%float = true)
  /\ (Geolocation.status result = outside <-> (distance <=? 1000)%float = false)
  /\ Geolocation.status result <> unknown
  /\ (Geolocation.radius <=? Geolocation.radius)%float = true.
Proof.
  intros distance result.
  split; [reflexivity|]. split; [reflexivity|].
  unfold result, Geolocation.checkGeofence.
  change (Geolocation.calculateDistance
            lat lng Geolocation.center_lat Geolocation.center_lng)
    with distance.
  change Geolocation.radius with 1000%float. cbv zeta. simpl.
  destruct (distance <=? 1000)%float; repeat split;
    intros; try reflexivity; try discriminate.
Qed.

(** ** The distance function

    Binary64 arithmetic first: negation commutes with multiplication and
    division, multiplication is commutative, and subtraction is
    antisymmetric up to the sign of an exact zero.  Rounding is to nearest
    even whatever the sign, so these follow from the shape of the
    operations' specification. *)

Section Binary64.
Local Open Scope float_scope.

Section SF.
Variables prec emax : Z.










End SF.

(** The same facts on the primitive operations, through their
    specification. *)



















Section DistanceLaws.
Context `{JsRuntime}.








End DistanceLaws.




End Binary64.




(** ** What the scanner submits *)




(** C10.  With both coordinates present and one of them equal to zero,
    the scanner's geofence guard is false: the geofence check is not
    run and the scan is submitted with geofencingStatus unknown, while
    the submitted data still carries both coordinates, the zero one
    printed as "0". *)
Theorem zero_coordinate_submitted_as_unknown `{JsRuntime}
        (studentId sessionId token : string) (lat lng : float) :
  sessionId <> "" -> token <> "" ->
  (lat =? 0)%float = true \/ (lng =? 0)%float = true ->
  Coordinate_truthy (Some lat) && Coordinate_truthy (Some lng) = false
  /\ exists data,
      QRScanner.processQRCode
        studentId (Some lat) (Some lng)
        (Some (QRScanner.ParsedData.mk (Some sessionId) (Some token)))
      = QRScanner.Submitted data
      /\ Firebase.AttendanceData.geofencingStatus data = unknown
      /\ Firebase.AttendanceData.latitude data = Some (Number_toString lat)
      /\ Firebase.AttendanceData.longitude data = Some (Number_toString lng)
      /\ ((lat =? 0)%float = true ->
          Firebase.AttendanceData.latitude data = Some "0")
      /\ ((lng =? 0)%float = true ->
          Firebase.AttendanceData.longitude data = Some "0").
Proof.
  intros Hsid Htok Hzero.
  assert (Hguard : Coordinate_truthy (Some lat) && Coordinate_truthy (Some lng)
                   = false).
  { unfold Coordinate_truthy, Number_truthy.
    destruct Hzero as [Hz | Hz]; rewrite Hz; simpl.
    - reflexivity.
    - now rewrite andb_false_r. }
  split; [exact Hguard|].
  unfold QRScanner.processQRCode. simpl.
  apply String.eqb_neq in Hsid, Htok. rewrite Hsid, Htok. simpl.
  eexists. split; [reflexivity|]. simpl.
  unfold QRScanner.scanGeofencingStatus. rewrite Hguard.
  repeat split; intros Hz; unfold Number_toString; now rewrite Hz.
Qed.

Lemma zero_coordinate_submitted_as_unknown_witness :
  Coordinate_truthy (Some 0%float) && Coordinate_truthy (Some 77.5946%float)
  = false.
Proof.
  apply (proj1 (zero_coordinate_submitted_as_unknown
                  (H := exampleRuntime) "u1" "s1" "TK" 0%float 77.5946%float
                  ltac:(discriminate) ltac:(discriminate)
                  (or_introl eq_refl))).
Defined.

(* ================================================================== *)
(** * Further properties of the store and of the handlers *)

(** ** More facts about [JsMap] *)

Lemma JsMap_get_None_keys {V : Type} k (m : JsMap.t V) :
  JsMap.get k m = None <-> ~ In k (map fst m).
Proof.
  induction m as [|[k' v'] m IH]; simpl.
  - tauto.
  - destruct (String.eqb k k') eqn:Hk.
    + apply String.eqb_eq in Hk. subst. split; [discriminate | tauto].
    + apply String.eqb_neq in Hk. rewrite IH. split.
      * intros H [Heq | Hin]; [congruence | contradiction].
      * tauto.
Qed.

(** A new key goes last. *)
Lemma JsMap_set_fresh {V : Type} k (v : V) (m : JsMap.t V) :
  JsMap.get k m = None -> JsMap.set k v m = (m ++ [(k, v)])%list.
Proof.
  induction m as [|[k' v'] m IH]; simpl; intros Hg; [reflexivity|].
  destruct (String.eqb k k'); [discriminate|]. now rewrite IH.
Qed.

(** Setting a key never removes a key and adds at most that one. *)
Lemma JsMap_set_keys {V : Type} k (v : V) (m : JsMap.t V) :
  map fst (JsMap.set k v m)
  = match JsMap.get k m with
    | Some _ => map fst m
    | None => (map fst m ++ [k])%list
    end.
Proof.
  induction m as [|[k' v'] m IH]; simpl; [reflexivity|].
  destruct (String.eqb k k') eqn:Hk; simpl.
  - apply String.eqb_eq in Hk. now subst.
  - rewrite IH. now destruct (JsMap.get k m).
Qed.

Lemma keysUnique_set {V : Type} k (v : V) (m : JsMap.t V) :
  keysUnique m -> keysUnique (JsMap.set k v m).
Proof.
  unfold keysUnique. intros Hm. rewrite JsMap_set_keys.
  destruct (JsMap.get k m) eqn:Hg; [exact Hm|].
  apply JsMap_get_None_keys in Hg.
  apply NoDup_app; [exact Hm | repeat constructor; intros [] | ].
  intros x Hx [<- | []]. contradiction.
Qed.

Lemma JsMap_delete_keys_incl {V : Type} k (m : JsMap.t V) x :
  In x (map fst (JsMap.delete k m)) -> In x (map fst m).
Proof.
  induction m as [|[k' v'] m IH]; simpl; [tauto|].
  destruct (String.eqb k k'); simpl; tauto.
Qed.

Lemma keysUnique_delete {V : Type} k (m : JsMap.t V) :
  keysUnique m -> keysUnique (JsMap.delete k m).
Proof.
  unfold keysUnique. induction m as [|[k' v'] m IH]; simpl; intros Hm.
  - constructor.
  - inversion Hm as [|? ? Hnotin Hm']; subst.
    destruct (String.eqb k k'); simpl; [exact Hm'|].
    constructor; [|now apply IH].
    intros Hin. apply Hnotin. eapply JsMap_delete_keys_incl; eauto.
Qed.

Lemma keyedById_set {V : Type} (id : V -> string) k v (m : JsMap.t V) :
  id v = k -> keyedById id m -> keyedById id (JsMap.set k v m).
Proof.
  unfold keyedById, JsMap.entries. intros Hv.
  induction m as [|[k' v'] m IH]; simpl; intros Hm.
  - repeat constructor. exact Hv.
  - apply Forall_cons_iff in Hm as [Hhd Htl].
    destruct (String.eqb k k'); constructor; auto.
Qed.

Lemma keyedById_delete {V : Type} (id : V -> string) k (m : JsMap.t V) :
  keyedById id m -> keyedById id (JsMap.delete k m).
Proof.
  unfold keyedById, JsMap.entries.
  induction m as [|[k' v'] m IH]; simpl; intros Hm; [constructor|].
  inversion Hm; subst. destruct (String.eqb k k'); auto.
Qed.

(** With distinct keys, deleting a key removes every entry under it. *)
Lemma JsMap_delete_filter {V : Type} k (m : JsMap.t V) :
  keysUnique m ->
  JsMap.delete k m = filter (fun e => negb (String.eqb k (fst e))) m.
Proof.
  unfold keysUnique. induction m as [|[k' v'] m IH]; simpl; intros Hm.
  - reflexivity.
  - inversion Hm as [|? ? Hnotin Hm']; subst.
    destruct (String.eqb k k') eqn:Hk; simpl.
    + apply String.eqb_eq in Hk. subst k'.
      symmetry. apply forallb_filter_id. apply forallb_forall.
      intros [k'' v''] Hin. simpl.
      destruct (String.eqb k k'') eqn:Hk''; [|reflexivity].
      apply String.eqb_eq in Hk''. subst k''.
      exfalso. apply Hnotin. now apply (in_map fst) in Hin.
    + now rewrite IH.
Qed.

Lemma keysUnique_filter {V : Type} (p : string * V -> bool) (m : JsMap.t V) :
  keysUnique m -> keysUnique (filter p m).
Proof.
  unfold keysUnique. induction m as [|e m IH]; simpl; intros Hm.
  - constructor.
  - inversion Hm as [|? ? Hnotin Hm']; subst.
    destruct (p e); simpl; [|now apply IH].
    constructor; [|now apply IH].
    intros Hin. apply Hnotin.
    apply in_map_iff in Hin as (e' & He' & Hin).
    apply filter_In in Hin as [Hin _].
    rewrite <- He'. now apply in_map.
Qed.

Lemma filter_filter_andb {A : Type} (p q : A -> bool) (l : list A) :
  filter q (filter p l) = filter (fun x => p x && q x) l.
Proof.
  induction l as [|a l IH]; simpl; [reflexivity|].
  destruct (p a); simpl; [destruct (q a)|]; now rewrite IH.
Qed.

Lemma map_snd_filter {V : Type} (p : V -> bool) (m : JsMap.t V) :
  map snd (filter (fun e => p (snd e)) m) = filter p (map snd m).
Proof.
  induction m as [|e m IH]; simpl; [reflexivity|].
  destruct (p (snd e)); simpl; now rewrite IH.
Qed.

Lemma find_filter_implied {A : Type} (p q : A -> bool) (l : list A) :
  (forall x, In x l -> p x = true -> q x = true) ->
  find p (filter q l) = find p l.
Proof.
  induction l as [|a l IH]; simpl; intros H; [reflexivity|].
  destruct (q a) eqn:Hq; simpl.
  - destruct (p a); [reflexivity|]. apply IH. auto.
  - destruct (p a) eqn:Hp.
    + rewrite (H a (or_introl eq_refl) Hp) in Hq. discriminate.
    + apply IH. auto.
Qed.

Lemma find_In_Some {A : Type} (p : A -> bool) (l : list A) x :
  In x l -> p x = true -> exists y, find p l = Some y /\ p y = true.
Proof.
  intros Hin Hp. destruct (find p l) as [y|] eqn:Hf.
  - exists y. split; [reflexivity|]. now apply find_some in Hf.
  - eapply find_none in Hf; eauto. congruence.
Qed.

(** ** Shape of the maps in every state the server reaches *)

Lemma cleanup_fold_preserves (P : JsMap.t QRToken.t -> Prop) now :
  (forall k m, P m -> P (JsMap.delete k m)) ->
  forall es acc,
    P acc ->
    P (fold_left
         (fun m entry =>
            if QRToken.expiresAt (snd entry) <=? now
            then JsMap.delete (fst entry) m else m)
         es acc).
Proof.
  intros Hdel. induction es as [|e es IH]; simpl; intros acc Hacc; [exact Hacc|].
  apply IH. destruct (QRToken.expiresAt (snd e) <=? now); auto.
Qed.

Lemma handle_preserves_wellKeyed st r :
  wellKeyed st -> wellKeyed (Routes.handle st r).
Proof.
  intros (Hs & Ha & Ht & Hai & Hti).
  destruct r as [u n d|i u|u n d|u n d|n|n u n' b]; simpl.
  - repeat split; auto. now apply keysUnique_set.
  - unfold Routes.patch_session, MemStorage.updateSession.
    destruct (JsMap.get _ _); simpl; repeat split; auto.
    now apply keysUnique_set.
  - repeat split; auto.
    + now apply keysUnique_set.
    + now apply keyedById_set.
  - repeat split; auto.
    + now apply keysUnique_set.
    + now apply keyedById_set.
  - unfold Routes.cleanup_tokens, MemStorage.cleanupExpiredTokens.
    repeat split; auto; simpl.
    + apply (cleanup_fold_preserves keysUnique); auto.
      intros; now apply keysUnique_delete.
    + apply (cleanup_fold_preserves (keyedById QRToken.id)); auto.
      intros; now apply keyedById_delete.
  - pose proof (verify_qr_cases n u n' b st) as Hc.
    pose proof (verify_qr_tokens_unchanged n u n' b st) as Htok.
    simpl in Hc.
    assert (Hsess : MemStorage.sessions (snd (Routes.verify_qr n u n' b st))
                    = MemStorage.sessions st).
    { unfold Routes.verify_qr.
      destruct (MemStorage.getValidToken _ _ _); [|reflexivity].
      destruct (negb _); [reflexivity|].
      destruct (find _ _); reflexivity. }
    unfold wellKeyed. rewrite Htok, Hsess.
    destruct (Routes.verify_qr n u n' b st) as [[a| |] st'] eqn:Hv; simpl in *.
    + destruct Hc as (_ & _ & _ & Hatt & _). rewrite Hatt.
      repeat split; auto.
      * now apply keysUnique_set.
      * apply keyedById_set; [|exact Hai].
        unfold Routes.verify_qr in Hv.
        destruct (MemStorage.getValidToken _ _ _); [|discriminate].
        destruct (negb _); [discriminate|].
        destruct (find _ _); [discriminate|].
        simpl in Hv. injection Hv as <- _. reflexivity.
    + subst st'. repeat split; auto.
    + destruct Hc as [-> _]. repeat split; auto.
Qed.

Lemma serve_preserves_wellKeyed rs :
  forall st, wellKeyed st -> wellKeyed (Routes.serve rs st).
Proof.
  induction rs as [|r rs IH]; simpl; intros st Hst; [exact Hst|].
  apply IH. now apply handle_preserves_wellKeyed.
Qed.

Lemma wellKeyed_new : wellKeyed MemStorage.new.
Proof. repeat split; constructor. Qed.

(** X1.  In every state the server reaches, the keys of the session,
    attendance and token maps are pairwise distinct, and every
    attendance record and every token is stored under its own id. *)
Theorem reachable_store_wellKeyed st :
  Routes.reachable st -> wellKeyed st.
Proof.
  intros [rs <-]. apply serve_preserves_wellKeyed. exact wellKeyed_new.
Qed.

Lemma reachable_store_wellKeyed_witness :
  wellKeyed
    (Routes.serve
       [Routes.PostQRToken "k1" 0 (InsertQRToken.mk "A" "TK" 2000);
        Routes.VerifyQR 100 "id-1" 101
          (Routes.VerifyBody.mk "A" "TK" "u1" None None None);
        Routes.CleanupTokens 5000]
       MemStorage.new).
Proof.
  apply reachable_store_wellKeyed. eexists. reflexivity.
Defined.

(** ** Cleaning up expired tokens *)

Lemma cleanup_fold_filter now :
  forall es (acc : JsMap.t QRToken.t),
    keysUnique acc ->
    fold_left
      (fun m entry =>
         if QRToken.expiresAt (snd entry) <=? now
         then JsMap.delete (fst entry) m else m)
      es acc
    = filter (fun e =>
                negb (existsb
                        (fun e' => (QRToken.expiresAt (snd e') <=? now)
                                   && String.eqb (fst e') (fst e))
                        es))
             acc.
Proof.
  induction es as [|e0 es IH]; simpl; intros acc Hacc.
  - symmetry. apply forallb_filter_id. apply forallb_forall. reflexivity.
  - destruct (QRToken.expiresAt (snd e0) <=? now) eqn:He0; simpl.
    + rewrite IH by now apply keysUnique_delete.
      rewrite JsMap_delete_filter by exact Hacc.
      rewrite filter_filter_andb. apply filter_ext. intros e.
      now rewrite negb_orb.
    + now rewrite IH.
Qed.

Lemma cleanupExpiredTokens_values now st :
  keysUnique (MemStorage.qrTokens st) ->
  JsMap.values (MemStorage.qrTokens (MemStorage.cleanupExpiredTokens now st))
  = filter (unexpired now) (JsMap.values (MemStorage.qrTokens st)).
Proof.
  intros Hk. unfold MemStorage.cleanupExpiredTokens, JsMap.entries. simpl.
  rewrite cleanup_fold_filter by exact Hk.
  unfold JsMap.values. rewrite <- map_snd_filter. f_equal.
  apply filter_ext_in. intros e Hin. unfold unexpired.
  destruct (QRToken.expiresAt (snd e) <=? now) eqn:He.
  - apply Z.leb_le in He.
    replace (now <? QRToken.expiresAt (snd e)) with false
      by (symmetry; apply Z.ltb_ge; lia).
    apply negb_false_iff. apply existsb_exists. exists e.
    split; [exact Hin|]. rewrite String.eqb_refl.
    apply andb_true_iff. split; [now apply Z.leb_le | reflexivity].
  - apply Z.leb_gt in He.
    replace (now <? QRToken.expiresAt (snd e)) with true
      by (symmetry; apply Z.ltb_lt; lia).
    apply negb_true_iff.
    destruct (existsb _ _) eqn:Hex; [|reflexivity].
    apply existsb_exists in Hex as (e' & Hin' & Hc).
    apply andb_true_iff in Hc as [Hexp Hkey].
    apply String.eqb_eq in Hkey. apply Z.leb_le in Hexp.
    assert (e' = e) by (eapply NoDup_map_eq; eauto).
    subst e'. lia.
Qed.

(** X2.  When the keys of the token map are distinct, the cleanup at
    time [now] keeps exactly the tokens whose expiry is strictly after
    [now], in their order: none of them is lost and no token expired at
    [now] is left. *)
Theorem cleanupExpiredTokens_keeps_unexpired now st :
  keysUnique (MemStorage.qrTokens st) ->
  let st' := Routes.cleanup_tokens now st in
  JsMap.values (MemStorage.qrTokens st')
  = filter (unexpired now) (JsMap.values (MemStorage.qrTokens st))
  /\ (forall t, In t (JsMap.values (MemStorage.qrTokens st')) ->
                now < QRToken.expiresAt t)
  /\ MemStorage.sessions st' = MemStorage.sessions st
  /\ MemStorage.attendance st' = MemStorage.attendance st.
Proof.
  intros Hk st'. unfold st', Routes.cleanup_tokens.
  rewrite cleanupExpiredTokens_values by exact Hk.
  repeat split.
  intros t Hin. apply filter_In in Hin as [_ Hu]. now apply Z.ltb_lt.
Qed.

Lemma cleanupExpiredTokens_keeps_unexpired_witness :
  let st := Routes.serve
              [Routes.PostQRToken "k1" 0 (InsertQRToken.mk "A" "TK1" 2000);
               Routes.PostQRToken "k2" 2000 (InsertQRToken.mk "A" "TK2" 4000);
               Routes.PostQRToken "k3" 4000 (InsertQRToken.mk "A" "TK3" 6000)]
              MemStorage.new in
  JsMap.values (MemStorage.qrTokens (Routes.cleanup_tokens 4000 st))
  = filter (unexpired 4000) (JsMap.values (MemStorage.qrTokens st)).
Proof.
  intros st.
  apply (proj1 (cleanupExpiredTokens_keeps_unexpired 4000 st
                  ltac:(repeat constructor; simpl; intuition discriminate))).
Defined.

(** X3.  Cleaning up at [now] changes no later validation: for every
    time [now'] not before [now], the token lookup and the answer of the
    verification handler are the same on the cleaned store as on the
    store before. *)
Theorem cleanup_does_not_change_validation now now' st :
  keysUnique (MemStorage.qrTokens st) ->
  now <= now' ->
  (forall token,
      MemStorage.getValidToken now' token (Routes.cleanup_tokens now st)
      = MemStorage.getValidToken now' token st)
  /\ (forall uuid now'' body,
         fst (Routes.verify_qr now' uuid now'' body
                               (Routes.cleanup_tokens now st))
         = fst (Routes.verify_qr now' uuid now'' body st)).
Proof.
  intros Hk Hle.
  assert (Hlookup : forall token,
             MemStorage.getValidToken now' token (Routes.cleanup_tokens now st)
             = MemStorage.getValidToken now' token st).
  { intros token. unfold MemStorage.getValidToken, Routes.cleanup_tokens.
    rewrite cleanupExpiredTokens_values by exact Hk.
    apply find_filter_implied. intros t _ Hlive.
    unfold MemStorage.tokenLive in Hlive. unfold unexpired.
    apply andb_true_iff in Hlive as [_ Hlt].
    apply Z.ltb_lt in Hlt. apply Z.ltb_lt. lia. }
  split; [exact Hlookup|].
  intros uuid now'' body. unfold Routes.verify_qr. rewrite Hlookup.
  destruct (MemStorage.getValidToken now' _ st); [|reflexivity].
  destruct (negb _); [reflexivity|].
  unfold MemStorage.getAttendance, Routes.cleanup_tokens. simpl.
  destruct (find _ _); reflexivity.
Qed.

Lemma cleanup_does_not_change_validation_witness :
  let st := Routes.serve
              [Routes.PostQRToken "k1" 0 (InsertQRToken.mk "A" "TK1" 2000);
               Routes.PostQRToken "k2" 2000 (InsertQRToken.mk "A" "TK2" 4000)]
              MemStorage.new in
  MemStorage.getValidToken 3000 "TK2" (Routes.cleanup_tokens 2500 st)
  = MemStorage.getValidToken 3000 "TK2" st.
Proof.
  intros st.
  apply (proj1 (cleanup_does_not_change_validation
                  2500 3000 st
                  ltac:(repeat constructor; simpl; intuition discriminate)
                  ltac:(lia)) "TK2").
Defined.

(** ** Creating and looking up *)

Lemma find_app_r {A : Type} (p : A -> bool) (l l' : list A) :
  find p (l ++ l') = match find p l with
                     | Some x => Some x
                     | None => find p l'
                     end.
Proof.
  induction l as [|a l IH]; simpl; [reflexivity|].
  destruct (p a); auto.
Qed.

Lemma JsMap_values_set_fresh {V : Type} k (v : V) (m : JsMap.t V) :
  JsMap.get k m = None ->
  JsMap.values (JsMap.set k v m) = (JsMap.values m ++ [v])%list.
Proof.
  intros Hg. rewrite JsMap_set_fresh by exact Hg.
  unfold JsMap.values. now rewrite map_app.
Qed.

(** X4.  A token created under a fresh id with an expiry after [now']
    makes the lookup of its string at [now'] succeed, with a live token
    of that string: the created one when no live token had the string
    before, the earlier one otherwise.  The lookup of any other string
    is unchanged. *)
Theorem created_token_is_found uuid now d st now' :
  JsMap.get uuid (MemStorage.qrTokens st) = None ->
  now' < InsertQRToken.expiresAt d ->
  let q := fst (MemStorage.createQRToken uuid now d st) in
  let st' := snd (MemStorage.createQRToken uuid now d st) in
  let token := InsertQRToken.token d in
  (exists t, MemStorage.getValidToken now' token st' = Some t
             /\ QRToken.token t = token /\ now' < QRToken.expiresAt t)
  /\ (MemStorage.getValidToken now' token st = None ->
      MemStorage.getValidToken now' token st' = Some q)
  /\ (forall t, MemStorage.getValidToken now' token st = Some t ->
                MemStorage.getValidToken now' token st' = Some t)
  /\ (forall other, other <> token ->
                    MemStorage.getValidToken now' other st'
                    = MemStorage.getValidToken now' other st).
Proof.
  intros Hfresh Hexp q st' token.
  assert (Hlook : forall s,
             MemStorage.getValidToken now' s st'
             = match MemStorage.getValidToken now' s st with
               | Some x => Some x
               | None => if MemStorage.tokenLive now' s q then Some q else None
               end).
  { intros s. unfold MemStorage.getValidToken, st'. simpl.
    rewrite JsMap_values_set_fresh by exact Hfresh.
    rewrite find_app_r. reflexivity. }
  assert (Hq : MemStorage.tokenLive now' token q = true).
  { unfold MemStorage.tokenLive, q, token. simpl.
    rewrite String.eqb_refl. simpl. now apply Z.ltb_lt. }
  split; [|split; [|split]].
  - rewrite Hlook.
    destruct (MemStorage.getValidToken now' token st) as [t|] eqn:Ht.
    + exists t. split; [reflexivity|].
      now apply getValidToken_Some in Ht as (_ & H1 & H2).
    + rewrite Hq. exists q. repeat split. exact Hexp.
  - intros Hnone. now rewrite Hlook, Hnone, Hq.
  - intros t Ht. now rewrite Hlook, Ht.
  - intros other Hne. rewrite Hlook.
    destruct (MemStorage.getValidToken now' other st); [reflexivity|].
    unfold MemStorage.tokenLive, q. simpl.
    replace (String.eqb (InsertQRToken.token d) other) with false;
      [reflexivity|].
    symmetry. apply String.eqb_neq. intros Heq. apply Hne.
    now rewrite <- Heq.
Qed.

Lemma created_token_is_found_witness :
  MemStorage.getValidToken
    1999 "TK"
    (snd (MemStorage.createQRToken "k1" 0 (InsertQRToken.mk "A" "TK" 2000)
            MemStorage.new))
  = Some (QRToken.mk "k1" "A" "TK" 2000 0).
Proof.
  apply (proj1 (proj2 (created_token_is_found
                         "k1" 0 (InsertQRToken.mk "A" "TK" 2000)
                         MemStorage.new 1999 eq_refl eq_refl))).
  reflexivity.
Defined.

Lemma updateSession_frame_other id updates st k :
  k <> id ->
  MemStorage.getSession k (MemStorage.updateSession id updates st)
  = MemStorage.getSession k st.
Proof.
  intros Hk. unfold MemStorage.updateSession, MemStorage.getSession.
  destruct (JsMap.get id (MemStorage.sessions st)); simpl; [|reflexivity].
  now apply JsMap_get_set_other.
Qed.

(** X5.  A session update changes nothing but the session it addresses:
    the attendance and token maps, the keys of the session map and every
    other session stay as they are, and an update addressed to an id
    that is not stored changes nothing at all; no update creates or
    removes a session. *)
Theorem updateSession_touches_one_session id updates st :
  let st' := MemStorage.updateSession id updates st in
  MemStorage.attendance st' = MemStorage.attendance st
  /\ MemStorage.qrTokens st' = MemStorage.qrTokens st
  /\ map fst (MemStorage.sessions st') = map fst (MemStorage.sessions st)
  /\ (forall k, k <> id ->
                MemStorage.getSession k st' = MemStorage.getSession k st)
  /\ (MemStorage.getSession id st = None -> st' = st)
  /\ (forall s, MemStorage.getSession id st = Some s ->
                MemStorage.getSession id st'
                = Some (MemStorage.spread s updates)).
Proof.
  intros st'. unfold st', MemStorage.updateSession, MemStorage.getSession.
  destruct (JsMap.get id (MemStorage.sessions st)) as [s|] eqn:Hs; simpl.
  - repeat split.
    + rewrite JsMap_set_keys, Hs. reflexivity.
    + intros k Hk. now apply JsMap_get_set_other.
    + discriminate.
    + intros s0 [= <-]. apply JsMap_get_set_same.
  - repeat split; intros; auto; discriminate.
Qed.

Lemma updateSession_touches_one_session_witness :
  let st := snd (Routes.post_session "s1" 0
                   (InsertSession.mk "f1" 3 "CS" "Data Structures" None None)
                   MemStorage.new) in
  MemStorage.updateSession "s2" (FacultyDashboard.endSessionUpdate 10) st = st
  /\ MemStorage.getSession
       "s1" (MemStorage.updateSession "s2"
                                      (FacultyDashboard.endSessionUpdate 10) st)
     = MemStorage.getSession "s1" st.
Proof.
  intros st. split.
  - apply (updateSession_touches_one_session
             "s2" (FacultyDashboard.endSessionUpdate 10) st). reflexivity.
  - apply (updateSession_touches_one_session
             "s2" (FacultyDashboard.endSessionUpdate 10) st). discriminate.
Defined.

(** X6.  A created session can be looked up under its id, is active
    with no end time whatever the request said about isActive, and is
    listed among the active sessions of its faculty; the sessions under
    other ids are unchanged. *)
Theorem created_session_is_active uuid now d st :
  let s := fst (MemStorage.createSession uuid now d st) in
  let st' := snd (MemStorage.createSession uuid now d st) in
  MemStorage.getSession uuid st' = Some s
  /\ Session.id s = uuid
  /\ Session.isActive s = JsBool true
  /\ Session.endedAt s = None
  /\ In s (MemStorage.getActiveSessions (InsertSession.facultyId d) st')
  /\ (forall k, k <> uuid ->
                MemStorage.getSession k st' = MemStorage.getSession k st).
Proof.
  intros s st'. unfold st', MemStorage.getSession. simpl.
  split; [apply JsMap_get_set_same|].
  repeat split.
  - unfold MemStorage.getActiveSessions. simpl. apply filter_In. split.
    + apply JsMap_set_values_In.
    + simpl. now rewrite String.eqb_refl.
  - intros k Hk. now apply JsMap_get_set_other.
Qed.

Lemma created_session_is_active_witness :
  let d := InsertSession.mk "f1" 3 "CS" "Data Structures" (Some false) None in
  let st := snd (MemStorage.createSession "s1" 0 d MemStorage.new) in
  MemStorage.getSession "s1" (snd (MemStorage.createSession "s2" 5 d st))
  = MemStorage.getSession "s1" st.
Proof.
  intros d st.
  apply (created_session_is_active "s2" 5 d st). discriminate.
Defined.

(** X7.  An attendance record created under a fresh id goes last: the
    attendance of its session and of its student is what it was,
    followed by the new record, and the attendance of every other
    session and student is unchanged. *)
Theorem created_attendance_is_appended uuid now d st :
  JsMap.get uuid (MemStorage.attendance st) = None ->
  let r := fst (MemStorage.createAttendance uuid now d st) in
  let st' := snd (MemStorage.createAttendance uuid now d st) in
  (forall sessionId,
      MemStorage.getAttendance sessionId st'
      = (MemStorage.getAttendance sessionId st
         ++ (if String.eqb (InsertAttendance.sessionId d) sessionId
             then [r] else []))%list)
  /\ (forall studentId,
         MemStorage.getStudentAttendance studentId st'
         = (MemStorage.getStudentAttendance studentId st
            ++ (if String.eqb (InsertAttendance.studentId d) studentId
                then [r] else []))%list).
Proof.
  intros Hfresh r st'.
  unfold st', MemStorage.getAttendance, MemStorage.getStudentAttendance.
  simpl. rewrite JsMap_values_set_fresh by exact Hfresh.
  split; intros x; rewrite filter_app; reflexivity.
Qed.

Lemma created_attendance_is_appended_witness :
  let d1 := InsertAttendance.mk "A" "u1" present None None None None in
  let d2 := InsertAttendance.mk "A" "u2" absent None None None (Some "f1") in
  let st := snd (MemStorage.createAttendance "id-1" 10 d1 MemStorage.new) in
  MemStorage.getAttendance "A" (snd (MemStorage.createAttendance "id-2" 20 d2 st))
  = [Attendance.mk "id-1" "A" "u1" present unknown None None None 10;
     Attendance.mk "id-2" "A" "u2" absent unknown None None (Some "f1") 20].
Proof.
  intros d1 d2 st.
  apply (proj1 (created_attendance_is_appended "id-2" 20 d2 st eq_refl) "A").
Defined.

(** X8.  The verification handler writes only when it answers with
    success: a rejected request (invalid token or duplicate) leaves the
    store as it was, and an accepted one leaves sessions and tokens
    alone and stores, under the drawn id, one record for the submitted
    pair with status present, no marker, the submitted coordinates and
    the submitted geofencing status (unknown when none was submitted). *)
Theorem verify_qr_writes_only_on_success now uuid now' body st :
  let answer := fst (Routes.verify_qr now uuid now' body st) in
  let st' := snd (Routes.verify_qr now uuid now' body st) in
  (answer = Routes.InvalidToken \/ answer = Routes.DuplicateAttendance ->
   st' = st)
  /\ (forall a, answer = Routes.Marked a ->
        a = Attendance.mk uuid
              (Routes.VerifyBody.sessionId body)
              (Routes.VerifyBody.studentId body)
              present
              (Routes.orElse (Routes.VerifyBody.geofencingStatus body) unknown)
              (Routes.VerifyBody.latitude body)
              (Routes.VerifyBody.longitude body)
              None now'
        /\ MemStorage.attendance st'
           = JsMap.set uuid a (MemStorage.attendance st)
        /\ MemStorage.sessions st' = MemStorage.sessions st
        /\ MemStorage.qrTokens st' = MemStorage.qrTokens st).
Proof.
  intros answer st'. unfold answer, st', Routes.verify_qr.
  destruct (MemStorage.getValidToken _ _ _) as [t|]; simpl;
    [|split; [reflexivity | discriminate]].
  destruct (negb _); simpl; [split; [reflexivity | discriminate]|].
  destruct (find _ _); simpl; [split; [reflexivity | discriminate]|].
  split.
  - intros [H | H]; discriminate H.
  - intros a [= <-]. repeat split.
Qed.

Lemma verify_qr_writes_only_on_success_witness :
  let st := snd (Routes.post_qr_token "k1" 0 (InsertQRToken.mk "A" "TK" 2000)
                   MemStorage.new) in
  let body := Routes.VerifyBody.mk "A" "TK" "u1" None None None in
  snd (Routes.verify_qr 2000 "id-1" 2000 body st) = st.
Proof.
  intros st body.
  apply (proj1 (verify_qr_writes_only_on_success 2000 "id-1" 2000 body st)).
  left. reflexivity.
Defined.

Lemma serve_verify_first_wins_witness :
  let st := snd (Routes.post_qr_token "k1" 0 (InsertQRToken.mk "A" "TK" 2000)
                   MemStorage.new) in
  let body := Routes.VerifyBody.mk "A" "TK" "u1" None None None in
  exists a st',
    Routes.serve_verify
      [(100, "id-1", 101, body); (150, "id-2", 151, body);
       (1999, "id-3", 2500, body)] st
    = ([Routes.Marked a; Routes.DuplicateAttendance;
        Routes.DuplicateAttendance], st')
    /\ List.length (recordsOf "A" "u1" st') = 1%nat.
Proof.
  intros st body.
  apply (serve_verify_first_wins
           "A" "u1" (100, "id-1", 101, body)
           [(150, "id-2", 151, body); (1999, "id-3", 2500, body)] st).
  - intros n u n' b [H | [H | [H | []]]]; injection H as <- <- <- <-;
      (repeat split; eexists; split; reflexivity).
  - reflexivity.
Defined.

Lemma serve_preserves_atMostOnePerPair_witness :
  let body := Routes.VerifyBody.mk "A" "TK" "u1" None None None in
  atMostOnePerPair
    (Routes.serve
       [Routes.PostQRToken "k1" 0 (InsertQRToken.mk "A" "TK" 2000);
        Routes.VerifyQR 100 "id-1" 101 body;
        Routes.VerifyQR 150 "id-2" 151 body]
       MemStorage.new).
Proof.
  intros body.
  apply serve_preserves_atMostOnePerPair.
  - intros r uuid now d [<- | [<- | [<- | []]]]; discriminate.
  - exact atMostOnePerPair_new.
Defined.

(** ** Users *)

(** X11.  A created user can be looked up under its id and the users
    under other ids are unchanged; when it has an email address or a
    phone number, the lookup by that value succeeds with a user that has
    it (the first one stored with it); and no lookup by email or phone
    returns a user that lacks the value asked for. *)
Theorem created_user_is_found uuid now d users :
  let u := fst (UserStore.createUser uuid now d users) in
  let users' := snd (UserStore.createUser uuid now d users) in
  UserStore.getUser uuid users' = Some u
  /\ (forall k, k <> uuid ->
                UserStore.getUser k users' = UserStore.getUser k users)
  /\ (forall e, InsertUser.email d = Some e ->
                exists u', UserStore.getUserByEmail e users' = Some u'
                           /\ User.email u' = Some e)
  /\ (forall p, InsertUser.phoneNumber d = Some p ->
                exists u', UserStore.getUserByPhone p users' = Some u'
                           /\ User.phoneNumber u' = Some p)
  /\ (forall e u', UserStore.getUserByEmail e users' = Some u' ->
                   User.email u' = Some e)
  /\ (forall p u', UserStore.getUserByPhone p users' = Some u' ->
                   User.phoneNumber u' = Some p).
Proof.
  intros u users'. unfold users', UserStore.getUser. simpl.
  assert (Hemail : forall e x, UserStore.hasEmail e x = true
                               -> User.email x = Some e).
  { unfold UserStore.hasEmail. intros e x.
    destruct (User.email x); [|discriminate].
    intros H. apply String.eqb_eq in H. now subst. }
  assert (Hphone : forall p x, UserStore.hasPhone p x = true
                               -> User.phoneNumber x = Some p).
  { unfold UserStore.hasPhone. intros p x.
    destruct (User.phoneNumber x); [|discriminate].
    intros H. apply String.eqb_eq in H. now subst. }
  split; [apply JsMap_get_set_same|].
  split; [intros k Hk; now apply JsMap_get_set_other|].
  split; [|split; [|split]].
  - intros e He.
    destruct (find_In_Some (UserStore.hasEmail e) _ u
                (JsMap_set_values_In uuid u users)) as (u' & Hf & Hp).
    + unfold UserStore.hasEmail, u. simpl. rewrite He.
      apply String.eqb_refl.
    + exists u'. split; [exact Hf | now apply Hemail].
  - intros p Hp.
    destruct (find_In_Some (UserStore.hasPhone p) _ u
                (JsMap_set_values_In uuid u users)) as (u' & Hf & Hp').
    + unfold UserStore.hasPhone, u. simpl. rewrite Hp.
      apply String.eqb_refl.
    + exists u'. split; [exact Hf | now apply Hphone].
  - intros e u' Hf. apply find_some in Hf as [_ Hf]. now apply Hemail.
  - intros p u' Hf. apply find_some in Hf as [_ Hf]. now apply Hphone.
Qed.

Lemma created_user_is_found_witness :
  let d := InsertUser.mk (Some "a@b.c") None faculty "Asha" None None in
  exists u',
    UserStore.getUserByEmail
      "a@b.c" (snd (UserStore.createUser "u1" 0 d JsMap.empty)) = Some u'
    /\ User.email u' = Some "a@b.c".
Proof.
  intros d.
  apply (proj1 (proj2 (proj2 (created_user_is_found "u1" 0 d JsMap.empty)))).
  reflexivity.
Defined.

(** ** Token strings, continued *)

Lemma string_of_uint_no_underscore d :
  ~ In "_"%char (list_ascii_of_string (NilEmpty.string_of_uint d)).
Proof.
  induction d; simpl; intros H; [contradiction|..];
    (destruct H as [H | H]; [discriminate H | auto]).
Qed.

Lemma integerToString_no_underscore n :
  ~ In "_"%char (list_ascii_of_string (QRGenerator.integerToString n)).
Proof.
  unfold QRGenerator.integerToString, NilZero.string_of_int,
    NilZero.string_of_uint.
  destruct (Z.to_int n) as [d | d]; destruct d; simpl;
    intros H; repeat (destruct H as [H | H]; try discriminate H);
    try contradiction;
    now apply (string_of_uint_no_underscore d).
Qed.

(** Two strings without underscore that are followed by an underscore
    in the same text are the same string. *)
Lemma underscore_delimits (a b x y : string) :
  ~ In "_"%char (list_ascii_of_string a) ->
  ~ In "_"%char (list_ascii_of_string b) ->
  a ++ String "_" x = b ++ String "_" y -> a = b.
Proof.
  revert b. induction a as [|c a IH]; intros [|c' b] Ha Hb H; simpl in *.
  - reflexivity.
  - injection H as <- _. exfalso. apply Hb. now left.
  - injection H as -> _. exfalso. apply Ha. now left.
  - injection H as -> H. f_equal. apply IH; auto.
Qed.

(** X12.  Tokens issued at different milliseconds differ, whatever the
    sessions they are issued for. *)
Theorem tokens_of_different_timestamps_differ
        (t1 t2 : Z) (sd1 sd2 : QRGenerator.SessionData) :
  t1 <> t2 ->
  QRGenerator.generateQRToken t1 sd1 <> QRGenerator.generateQRToken t2 sd2.
Proof.
  intros Hne H. apply Hne.
  unfold QRGenerator.generateQRToken in H. simpl in H. injection H as H.
  apply integerToString_inj.
  eapply underscore_delimits; [| |exact H];
    apply integerToString_no_underscore.
Qed.

Lemma tokens_of_different_timestamps_differ_witness :
  QRGenerator.generateQRToken
    1700000000000 (QRGenerator.mkData "Data Structures" 3 "CS")
  <> QRGenerator.generateQRToken
       1700000002000 (QRGenerator.mkData "Operating Systems" 5 "IT").
Proof.
  apply tokens_of_different_timestamps_differ. discriminate.
Defined.




(** ** The countdown of the generator *)

(** X14.  Whatever the order in which the refresh timer and the
    one-second timer fire, the countdown shows 1 or 2: it never reaches
    0 and never exceeds 2. *)
Theorem countdown_shows_one_or_two (ticks : list Countdown.Tick) :
  Countdown.run ticks = 1 \/ Countdown.run ticks = 2.
Proof.
  unfold Countdown.run.
  assert (H : forall t, t = 1 \/ t = 2 ->
                        fold_left Countdown.onTick ticks t = 1
                        \/ fold_left Countdown.onTick ticks t = 2).
  { induction ticks as [|k ticks IH]; simpl; intros t Ht; [exact Ht|].
    apply IH. destruct k; simpl; [now right|].
    destruct Ht as [-> | ->]; simpl; auto. }
  apply H. now right.
Qed.

(** ** The session clock of the dashboard *)

Lemma padStart2_two_digits (n : nat) :
  (n < 100)%nat ->
  String.length
    (SessionClock.padStart2 (QRGenerator.integerToString (Z.of_nat n)))
  = 2%nat.
Proof.
  intros Hn.
  do 100 (destruct n as [|n]; [reflexivity|]). lia.
Qed.

(** X15.  For a non-negative elapsed time the clock shows the whole
    minutes that have elapsed, split into hours and minutes: the minutes
    are between 0 and 59, and the elapsed time lies in the minute shown.
    Below one hundred hours the text has the five characters of
    HH:MM. *)
Theorem sessionDuration_shows_elapsed_minutes (diff : Z) :
  0 <= diff ->
  let h := SessionClock.hours diff in
  let m := SessionClock.minutes diff in
  0 <= h
  /\ 0 <= m <= 59
  /\ 60000 * (60 * h + m) <= diff < 60000 * (60 * h + m + 1)
  /\ (diff < 100 * 3600000 ->
      String.length (SessionClock.sessionDuration diff) = 5%nat).
Proof.
  intros Hd h m. unfold h, m, SessionClock.hours, SessionClock.minutes.
  change (1000 * 60 * 60) with 3600000. change (1000 * 60) with 60000.
  rewrite Z.rem_mod_nonneg by lia.
  pose proof (Z.div_mod diff 3600000 ltac:(lia)) as Hdm.
  pose proof (Z.mod_pos_bound diff 3600000 ltac:(lia)) as Hmb.
  pose proof (Z.div_mod (diff mod 3600000) 60000 ltac:(lia)) as Hdm'.
  pose proof (Z.mod_pos_bound (diff mod 3600000) 60000 ltac:(lia)) as Hmb'.
  assert (Hh : 0 <= diff / 3600000) by (apply Z.div_pos; lia).
  assert (Hm : 0 <= diff mod 3600000 / 60000 <= 59).
  { split; [apply Z.div_pos; lia|].
    apply Z.lt_succ_r. apply Z.div_lt_upper_bound; lia. }
  split; [exact Hh|]. split; [exact Hm|]. split; [lia|].
  intros Hlt.
  assert (Hh' : diff / 3600000 < 100)
    by (apply Z.div_lt_upper_bound; lia).
  unfold SessionClock.sessionDuration, SessionClock.hours,
    SessionClock.minutes.
  change (1000 * 60 * 60) with 3600000. change (1000 * 60) with 60000.
  rewrite Z.rem_mod_nonneg by lia.
  rewrite !string_length_append.
  rewrite <- (Z2Nat.id (diff / 3600000)) by lia.
  rewrite <- (Z2Nat.id (diff mod 3600000 / 60000)) by lia.
  rewrite !padStart2_two_digits by lia. reflexivity.
Qed.

Lemma sessionDuration_shows_elapsed_minutes_witness :
  String.length (SessionClock.sessionDuration 5025000) = 5%nat.
Proof.
  apply (sessionDuration_shows_elapsed_minutes 5025000); lia.
Defined.

(** ** The live counters of the dashboard *)

(** X16.  Of the records the dashboard holds, those counted as outside
    the campus are among those counted as present: the outside count
    never exceeds the present count, which never exceeds the number of
    records; a record marked absent adds to neither. *)
Theorem outsideCampusCount_le_presentCount
        (attendanceRecords : list Firebase.AttendanceDoc.t) :
  (LiveCounters.outsideCampusCount attendanceRecords
   <= LiveCounters.presentCount attendanceRecords)%nat
  /\ (LiveCounters.presentCount attendanceRecords
      <= List.length attendanceRecords)%nat
  /\ (forall record,
         Firebase.AttendanceData.status (Firebase.AttendanceDoc.data record)
         = absent ->
         LiveCounters.presentCount (record :: attendanceRecords)
         = LiveCounters.presentCount attendanceRecords
         /\ LiveCounters.outsideCampusCount (record :: attendanceRecords)
            = LiveCounters.outsideCampusCount attendanceRecords).
Proof.
  unfold LiveCounters.outsideCampusCount, LiveCounters.presentCount.
  split; [|split].
  - induction attendanceRecords as [|r l IH]; simpl; [lia|].
    destruct (LiveCounters.isPresent r), (LiveCounters.isOutside r);
      simpl; lia.
  - apply filter_length_le.
  - intros record Hr. simpl. unfold LiveCounters.isPresent.
    rewrite Hr. simpl. split; reflexivity.
Qed.

(** ** The location state of the scanner *)

Lemma requests_coordinates outcomes :
  forall s acc,
    GeolocationState.latitude s = option_map fst acc ->
    GeolocationState.longitude s = option_map snd acc ->
    let s' := GeolocationState.requests outcomes s in
    GeolocationState.latitude s'
    = option_map fst (GeolocationState.lastPosition outcomes acc)
    /\ GeolocationState.longitude s'
       = option_map snd (GeolocationState.lastPosition outcomes acc).
Proof.
  unfold GeolocationState.requests.
  induction outcomes as [|o outcomes IH]; simpl; intros s acc Hlat Hlng.
  - auto.
  - destruct o as [lat lng a | message]; simpl; apply IH; auto.
Qed.

(** X17.  After any run of position requests the hook holds the
    coordinates of the last request that succeeded: a request that fails
    afterwards leaves them in place, and the coordinates are absent only
    when no request has succeeded. *)
Theorem location_state_holds_last_position
        (outcomes : list GeolocationState.Outcome) :
  let s := GeolocationState.requests outcomes GeolocationState.initial in
  let last := GeolocationState.lastPosition outcomes None in
  GeolocationState.latitude s = option_map fst last
  /\ GeolocationState.longitude s = option_map snd last
  /\ (forall message,
         let s' := GeolocationState.requestLocation
                     (GeolocationState.Failure message) s in
         GeolocationState.latitude s' = GeolocationState.latitude s
         /\ GeolocationState.longitude s' = GeolocationState.longitude s
         /\ GeolocationState.error s' = Some message
         /\ GeolocationState.loading s' = false).
Proof.
  intros s last.
  destruct (requests_coordinates outcomes GeolocationState.initial None
              eq_refl eq_refl) as [Hlat Hlng].
  split; [exact Hlat|]. split; [exact Hlng|].
  intros message. repeat split.
Qed.

(** ** Manual entries *)

Lemma documentsOf_length sessionId studentId (coll : Firebase.Collection) :
  List.length (documentsOf sessionId studentId coll)
  = List.length
      (filter (fun d =>
                 String.eqb (Firebase.AttendanceData.sessionId
                               (Firebase.AttendanceDoc.data d)) sessionId
                 && String.eqb (Firebase.AttendanceData.studentId
                                  (Firebase.AttendanceDoc.data d)) studentId)
              (JsMap.values coll)).
Proof.
  unfold documentsOf, Firebase.getSessionAttendance, JsMap.entries,
    JsMap.values.
  induction coll as [|[k d] coll IH]; simpl; [reflexivity|].
  destruct (String.eqb (Firebase.AttendanceData.sessionId _) sessionId);
    simpl; [|exact IH].
  destruct (String.eqb (Firebase.AttendanceData.studentId _) studentId);
    simpl; now rewrite IH.
Qed.

Lemma snapshot_find_None sessionId studentId (coll : Firebase.Collection) :
  find (fun record =>
          String.eqb (Firebase.AttendanceData.studentId
                        (Firebase.AttendanceDoc.data record)) studentId)
       (map snd (Firebase.getSessionAttendance sessionId coll)) = None
  <-> documentsOf sessionId studentId coll = [].
Proof.
  unfold documentsOf.
  induction (Firebase.getSessionAttendance sessionId coll) as [|d l IH];
    simpl; [tauto|].
  destruct (String.eqb _ studentId); [split; discriminate | exact IH].
Qed.

(** X18.  A manual entry made against an up-to-date copy of the
    session's documents is refused, and writes nothing, when the student
    already has a document for the session; otherwise it stores one
    document for the student, with the chosen status, geofencing status
    unknown, no coordinates and the faculty as marker. *)
Theorem manual_entry_with_current_records
        (sessionId facultyId docId : string) (now : Z)
        (data : LiveStats.ManualAttendanceForm) (coll : Firebase.Collection) :
  let attendanceRecords :=
    map snd (Firebase.getSessionAttendance sessionId coll) in
  let outcome :=
    fst (LiveStats.onManualAttendance attendanceRecords sessionId facultyId
                                      data docId now coll) in
  let coll' :=
    snd (LiveStats.onManualAttendance attendanceRecords sessionId facultyId
                                      data docId now coll) in
  let studentId := LiveStats.studentId data in
  (documentsOf sessionId studentId coll <> [] ->
   outcome = LiveStats.AlreadyMarked /\ coll' = coll)
  /\ (documentsOf sessionId studentId coll = [] ->
      outcome = LiveStats.AttendanceUpdated
      /\ List.length (documentsOf sessionId studentId coll') = 1%nat
      /\ JsMap.get docId coll'
         = Some (Firebase.AttendanceDoc.mk
                   (Firebase.AttendanceData.mk
                      sessionId studentId (LiveStats.action data) unknown
                      None None (Some facultyId))
                   now)).
Proof.
  intros attendanceRecords outcome coll' studentId.
  subst attendanceRecords outcome coll' studentId.
  unfold LiveStats.onManualAttendance.
  destruct (find _ _) eqn:Hf; simpl.
  - split; [auto|]. intros Hnil.
    apply snapshot_find_None in Hnil. congruence.
  - apply snapshot_find_None in Hf. split; [intros Hne; contradiction|].
    intros _. split; [reflexivity|]. split; [|apply JsMap_get_set_same].
    rewrite documentsOf_length.
    set (p := fun d : Firebase.AttendanceDoc.t =>
                String.eqb (Firebase.AttendanceData.sessionId
                              (Firebase.AttendanceDoc.data d)) sessionId
                && String.eqb (Firebase.AttendanceData.studentId
                                 (Firebase.AttendanceDoc.data d))
                              (LiveStats.studentId data)).
    set (doc := Firebase.AttendanceDoc.mk _ now).
    assert (Hp : p doc = true)
      by (unfold p, doc; simpl; now rewrite !String.eqb_refl).
    pose proof (JsMap_set_filter_length p docId doc coll) as Hle.
    pose proof (JsMap_set_filter_length_ge p docId doc coll Hp) as Hge.
    rewrite Hp in Hle.
    assert (Hz : List.length (filter p (JsMap.values coll)) = 0%nat).
    { unfold p. rewrite <- documentsOf_length. now rewrite Hf. }
    lia.
Qed.

Lemma manual_entry_with_current_records_witness :
  let form := LiveStats.mkForm "u1" absent in
  let coll :=
    snd (LiveStats.onManualAttendance [] "A" "f1" form "d1" 10 JsMap.empty) in
  fst (LiveStats.onManualAttendance
         (map snd (Firebase.getSessionAttendance "A" coll))
         "A" "f1" form "d2" 20 coll)
  = LiveStats.AlreadyMarked.
Proof.
  intros form coll.
  apply (proj1 (manual_entry_with_current_records "A" "f1" "d2" 20 form coll)).
  discriminate.
Defined.

(** ** Any number of verification requests resumed in turn *)

Lemma runSchedule_app l1 l2 hs st :
  Routes.runSchedule (l1 ++ l2) hs st
  = Routes.runSchedule l2 (fst (Routes.runSchedule l1 hs st))
                       (snd (Routes.runSchedule l1 hs st)).
Proof.
  revert hs st. induction l1 as [|i l1 IH]; intros hs st; simpl.
  - reflexivity.
  - destruct (Routes.resumeAt i hs st) as [hs' st']. apply IH.
Qed.

Lemma resumeAt_middle pre h hs st :
  Routes.resumeAt (List.length pre) (pre ++ h :: hs) st
  = ((pre ++ fst (Routes.resume h st) :: hs)%list, snd (Routes.resume h st)).
Proof.
  induction pre as [|x pre IH]; simpl.
  - now destruct (Routes.resume h st).
  - now rewrite IH.
Qed.

Lemma runSchedule_round hs :
  forall pre st,
    Routes.runSchedule (seq (List.length pre) (List.length hs)) (pre ++ hs) st
    = ((pre ++ fst (resumeAll hs st))%list, snd (resumeAll hs st)).
Proof.
  induction hs as [|h hs IH]; intros pre st; simpl.
  - now rewrite app_nil_r.
  - rewrite resumeAt_middle.
    destruct (Routes.resume h st) as [h' st1]. simpl.
    specialize (IH (pre ++ [h'])%list st1).
    rewrite length_app, Nat.add_1_r, <- app_assoc in IH. simpl in IH.
    rewrite IH. destruct (resumeAll hs st1) as [hs' st2]. simpl.
    now rewrite <- app_assoc.
Qed.

Lemma runSchedule_round0 n hs st :
  List.length hs = n ->
  Routes.runSchedule (seq 0 n) hs st = resumeAll hs st.
Proof.
  intros <-. pose proof (runSchedule_round hs [] st) as H. simpl in H.
  rewrite H. now destruct (resumeAll hs st).
Qed.

Lemma resumeAll_started ps st :
  resumeAll (map Routes.Started ps) st
  = (map (fun p => Routes.AwaitingToken
                     p (MemStorage.getValidToken
                          (Routes.p_now p)
                          (Routes.VerifyBody.token (Routes.p_body p)) st))
         ps, st).
Proof.
  induction ps as [|p ps IH]; simpl; [reflexivity|]. now rewrite IH.
Qed.

Lemma resumeAll_awaitingToken ps st0 st :
  (forall p, In p ps ->
     exists t,
       MemStorage.getValidToken
         (Routes.p_now p) (Routes.VerifyBody.token (Routes.p_body p)) st0
       = Some t
       /\ QRToken.sessionId t = Routes.VerifyBody.sessionId (Routes.p_body p)) ->
  resumeAll
    (map (fun p => Routes.AwaitingToken
                     p (MemStorage.getValidToken
                          (Routes.p_now p)
                          (Routes.VerifyBody.token (Routes.p_body p)) st0))
         ps) st
  = (map (fun p => Routes.AwaitingAttendance
                     p (MemStorage.getAttendance
                          (Routes.VerifyBody.sessionId (Routes.p_body p)) st))
         ps, st).
Proof.
  induction ps as [|p ps IH]; simpl; intros Hps; [reflexivity|].
  destruct (Hps p (or_introl eq_refl)) as (t & Ht & Hs).
  rewrite Ht, Hs, String.eqb_refl. simpl.
  rewrite IH by (intros; apply Hps; now right). reflexivity.
Qed.

Lemma resumeAll_awaitingAttendance (l : Routes.Pending -> list Attendance.t) ps :
  forall st,
    (forall p, In p ps ->
       find (fun record =>
               String.eqb (Attendance.studentId record)
                          (Routes.VerifyBody.studentId (Routes.p_body p)))
            (l p) = None) ->
    resumeAll (map (fun p => Routes.AwaitingAttendance p (l p)) ps) st
    = (map (fun p => Routes.AwaitingCreate p (markedRecord p)) ps,
       MemStorage.mk
         (MemStorage.sessions st)
         (fold_left (fun m p => JsMap.set (Routes.p_uuid p) (markedRecord p) m)
                    ps (MemStorage.attendance st))
         (MemStorage.qrTokens st)).
Proof.
  induction ps as [|p ps IH]; simpl; intros st Hps.
  - now destruct st.
  - rewrite (Hps p (or_introl eq_refl)). simpl.
    rewrite IH by (intros; apply Hps; now right). reflexivity.
Qed.

Lemma resumeAll_awaitingCreate (r : Routes.Pending -> Attendance.t) ps st :
  resumeAll (map (fun p => Routes.AwaitingCreate p (r p)) ps) st
  = (map (fun p => Routes.Responded (Routes.Marked (r p))) ps, st).
Proof.
  induction ps as [|p ps IH]; simpl; [reflexivity|]. now rewrite IH.
Qed.

Lemma fold_set_fresh {V : Type} (f : Routes.Pending -> V) ps :
  forall m : JsMap.t V,
    NoDup (map Routes.p_uuid ps) ->
    (forall p, In p ps -> JsMap.get (Routes.p_uuid p) m = None) ->
    fold_left (fun m p => JsMap.set (Routes.p_uuid p) (f p) m) ps m
    = (m ++ map (fun p => (Routes.p_uuid p, f p)) ps)%list.
Proof.
  induction ps as [|p ps IH]; simpl; intros m Hnd Hfresh.
  - now rewrite app_nil_r.
  - inversion Hnd as [|? ? Hnotin Hnd']; subst.
    rewrite JsMap_set_fresh by (apply Hfresh; now left).
    rewrite IH; [now rewrite <- app_assoc | exact Hnd' |].
    intros p' Hin. apply JsMap_get_None_keys.
    rewrite map_app. simpl. intros Hk. apply in_app_or in Hk as [Hk | Hk].
    + revert Hk. apply JsMap_get_None_keys. apply Hfresh. now right.
    + destruct Hk as [Hk | []]. apply Hnotin. rewrite Hk.
      now apply in_map.
Qed.

(** X19.  Any number of verification requests for one pair not yet
    marked, each with a live token of the session and an id of its own,
    all in flight together and resumed in turn at each await: every one
    of them is answered with success, and the store ends with as many
    records for the pair as there were requests. *)
Theorem round_robin_verifications_all_marked sid uid ps st :
  (forall p, In p ps ->
     Routes.VerifyBody.sessionId (Routes.p_body p) = sid
     /\ Routes.VerifyBody.studentId (Routes.p_body p) = uid
     /\ exists t,
         MemStorage.getValidToken
           (Routes.p_now p) (Routes.VerifyBody.token (Routes.p_body p)) st
         = Some t
         /\ QRToken.sessionId t = sid) ->
  recordsOf sid uid st = [] ->
  NoDup (map Routes.p_uuid ps) ->
  (forall p, In p ps ->
     JsMap.get (Routes.p_uuid p) (MemStorage.attendance st) = None) ->
  let result :=
    Routes.runSchedule (roundRobin (List.length ps))
                       (map Routes.Started ps) st in
  fst result = map (fun p => Routes.Responded (Routes.Marked (markedRecord p)))
                   ps
  /\ List.length (recordsOf sid uid (snd result)) = List.length ps.
Proof.
  intros Hps Hnil Hnd Hfresh result. unfold result, roundRobin.
  rewrite runSchedule_app, (runSchedule_round0 _ _ st) by apply length_map.
  rewrite resumeAll_started. simpl fst. simpl snd.
  rewrite runSchedule_app, (runSchedule_round0 _ _ st) by apply length_map.
  rewrite resumeAll_awaitingToken.
  2:{ intros p Hin. destruct (Hps p Hin) as (Hs & _ & t & Ht & Hts).
      exists t. split; [exact Ht | congruence]. }
  simpl fst. simpl snd.
  rewrite runSchedule_app, (runSchedule_round0 _ _ st) by apply length_map.
  rewrite (resumeAll_awaitingAttendance
             (fun p => MemStorage.getAttendance
                         (Routes.VerifyBody.sessionId (Routes.p_body p)) st)).
  2:{ intros p Hin. destruct (Hps p Hin) as (Hs & Hu & _).
      rewrite Hs, Hu. now apply alreadyMarked_None_iff. }
  simpl fst. simpl snd.
  rewrite runSchedule_round0 by apply length_map.
  rewrite resumeAll_awaitingCreate. simpl. split; [reflexivity|].
  unfold recordsOf. simpl.
  rewrite fold_set_fresh by assumption.
  unfold JsMap.values. rewrite map_app, filter_app, map_map. simpl.
  unfold recordsOf, JsMap.values in Hnil. rewrite Hnil. simpl.
  rewrite forallb_filter_id; [apply length_map|].
  apply forallb_forall. intros r Hin.
  apply in_map_iff in Hin as (p & <- & Hin).
  destruct (Hps p Hin) as (Hs & Hu & _).
  unfold samePair, markedRecord. simpl.
  now rewrite Hs, Hu, !String.eqb_refl.
Qed.

Lemma round_robin_verifications_all_marked_witness :
  let st := snd (Routes.post_qr_token "k1" 0 (InsertQRToken.mk "A" "TK" 2000)
                   MemStorage.new) in
  let body := Routes.VerifyBody.mk "A" "TK" "u1" None None None in
  let ps := [Routes.mkPending 100 "id-1" 101 body;
             Routes.mkPending 100 "id-2" 101 body;
             Routes.mkPending 100 "id-3" 101 body] in
  List.length
    (recordsOf "A" "u1"
       (snd (Routes.runSchedule (roundRobin 3) (map Routes.Started ps) st)))
  = 3%nat.
Proof.
  intros st body ps.
  apply (proj2 (round_robin_verifications_all_marked "A" "u1" ps st
                  ltac:(intros p [<- | [<- | [<- | []]]];
                        (repeat split; eexists; split; reflexivity))
                  eq_refl
                  ltac:(repeat constructor; simpl; intuition discriminate)
                  ltac:(intros p [<- | [<- | [<- | []]]]; reflexivity))).
Defined.

(** ** What the scanner classifies *)

(** X20.  The scanner classifies a scan as unknown exactly when its
    geofence guard is false, that is when a coordinate is missing, zero
    or not a number; with both coordinates usable the classification is
    the one the geofence check returns, inside or outside. *)
Theorem scan_is_unknown_iff_guard_fails `{JsRuntime}
        (latitude longitude : option float) :
  (QRScanner.scanGeofencingStatus latitude longitude = unknown
   <-> Coordinate_truthy latitude && Coordinate_truthy longitude = false)
  /\ (forall lat lng,
         latitude = Some lat -> longitude = Some lng ->
         Number_truthy lat = true -> Number_truthy lng = true ->
         QRScanner.scanGeofencingStatus latitude longitude
         = Geolocation.status (Geolocation.checkGeofence lat lng)
         /\ QRScanner.scanGeofencingStatus latitude longitude <> unknown).
Proof.
  assert (Hnot : forall lat lng,
             Geolocation.status (Geolocation.checkGeofence lat lng) <> unknown).
  { intros lat lng. unfold Geolocation.checkGeofence. simpl.
    destruct (PrimFloat.leb _ _); discriminate. }
  split.
  - unfold QRScanner.scanGeofencingStatus.
    destruct (Coordinate_truthy latitude && Coordinate_truthy longitude)
      eqn:Hg.
    + destruct latitude as [lat|]; [|discriminate].
      destruct longitude as [lng|];
        [|simpl in Hg; rewrite andb_false_r in Hg; discriminate].
      split; [intros Hu; now apply Hnot in Hu | discriminate].
    + tauto.
  - intros lat lng -> -> Hlat Hlng.
    unfold QRScanner.scanGeofencingStatus. simpl. rewrite Hlat, Hlng. simpl.
    split; [reflexivity | apply Hnot].
Qed.

Lemma scan_is_unknown_iff_guard_fails_witness :
  QRScanner.scanGeofencingStatus
    (H := exampleRuntime) (Some 12.9716%float) (Some 77.5946%float)
  <> unknown.
Proof.
  apply (proj2 (scan_is_unknown_iff_guard_fails
                  (H := exampleRuntime)
                  (Some 12.9716%float) (Some 77.5946%float))
           12.9716%float 77.5946%float eq_refl eq_refl eq_refl eq_refl).
Defined.

(** ** Ending a session *)

Lemma JsMap_In_get {V : Type} k (v : V) (m : JsMap.t V) :
  keysUnique m -> In (k, v) m -> JsMap.get k m = Some v.
Proof.
  unfold keysUnique. induction m as [|[k' v'] m IH]; simpl; intros Hm Hin.
  - contradiction.
  - inversion Hm as [|? ? Hnotin Hm']; subst.
    destruct Hin as [[= -> ->] | Hin].
    + now rewrite String.eqb_refl.
    + destruct (String.eqb k k') eqn:Hk; [|now apply IH].
      apply String.eqb_eq in Hk. subst k'.
      exfalso. apply Hnotin. now apply (in_map fst) in Hin.
Qed.

Lemma JsMap_get_In {V : Type} k (v : V) (m : JsMap.t V) :
  JsMap.get k m = Some v -> In v (JsMap.values m).
Proof.
  induction m as [|[k' v'] m IH]; simpl; [discriminate|].
  destruct (String.eqb k k'); [intros [= ->]; now left | auto].
Qed.

(** X21.  Once a stored session has been ended it is no longer among
    the active sessions of any faculty, and the active sessions listed
    afterwards are sessions that were active before, stored under other
    ids and unchanged. *)
Theorem ended_session_is_not_listed id now st s :
  keysUnique (MemStorage.sessions st) ->
  MemStorage.getSession id st = Some s ->
  let st' := Routes.patch_session
               id (FacultyDashboard.endSessionUpdate now) st in
  forall facultyId s',
    In s' (MemStorage.getActiveSessions facultyId st') ->
    In s' (MemStorage.getActiveSessions facultyId st)
    /\ exists k, k <> id /\ MemStorage.getSession k st = Some s'
                 /\ MemStorage.getSession k st' = Some s'.
Proof.
  intros Hk Hs st' facultyId s' Hin.
  unfold MemStorage.getActiveSessions in *.
  apply filter_In in Hin as [Hin Hact].
  assert (Hk' : keysUnique (MemStorage.sessions st')).
  { unfold st', Routes.patch_session, MemStorage.updateSession.
    unfold MemStorage.getSession in Hs. rewrite Hs. simpl.
    now apply keysUnique_set. }
  unfold JsMap.values in Hin.
  apply in_map_iff in Hin as ([k v] & Hv & Hin). simpl in Hv. subst v.
  apply (JsMap_In_get k s' _ Hk') in Hin.
  fold (MemStorage.getSession k st') in Hin.
  pose proof (patch_session_getSession
                id id (FacultyDashboard.endSessionUpdate now) st s Hs) as Hid.
  rewrite String.eqb_refl in Hid. fold st' in Hid.
  destruct (String.eqb_spec k id) as [-> | Hne].
  - rewrite Hid in Hin. injection Hin as <-. simpl in Hact.
    rewrite andb_false_r in Hact. discriminate.
  - assert (Hsame : MemStorage.getSession k st' = MemStorage.getSession k st).
    { apply (updateSession_frame_other id). exact Hne. }
    split.
    + apply filter_In. split; [|exact Hact].
      rewrite Hsame in Hin. now apply JsMap_get_In in Hin.
    + exists k. repeat split; auto. now rewrite <- Hsame.
Qed.

Lemma ended_session_is_not_listed_witness :
  let d1 := InsertSession.mk "f1" 3 "CS" "Data Structures" None None in
  let d2 := InsertSession.mk "f1" 5 "CS" "Operating Systems" None None in
  let st := Routes.serve [Routes.PostSession "s1" 0 d1;
                          Routes.PostSession "s2" 5 d2] MemStorage.new in
  let s2 := Session.mk "s2" "f1" 5 "CS" "Operating Systems" (JsBool true) true
                       5 None in
  In s2 (MemStorage.getActiveSessions "f1" st).
Proof.
  intros d1 d2 st s2.
  apply (ended_session_is_not_listed
           "s1" 10 st
           (Session.mk "s1" "f1" 3 "CS" "Data Structures" (JsBool true) true 0
                       None)
           ltac:(repeat constructor; simpl; intuition discriminate)
           eq_refl "f1" s2).
  simpl. left. reflexivity.
Defined.

(** ** Attendance is only ever added *)

Lemma handle_appends_attendance st r :
  drawsFreshId r st ->
  exists added,
    MemStorage.attendance (Routes.handle st r)
    = (MemStorage.attendance st ++ added)%list.
Proof.
  intros Hfresh.
  destruct r as [u n d|i u|u n d|u n d|n|n u n' b]; simpl in *;
    try (exists []; now rewrite app_nil_r).
  - exists []. rewrite app_nil_r.
    unfold Routes.patch_session, MemStorage.updateSession.
    now destruct (JsMap.get _ _).
  - eexists. now apply JsMap_set_fresh.
  - unfold Routes.verify_qr.
    destruct (MemStorage.getValidToken _ _ _);
      [|exists []; now rewrite app_nil_r].
    destruct (negb _); [exists []; now rewrite app_nil_r|].
    destruct (find _ _); [exists []; now rewrite app_nil_r|].
    simpl. eexists. now apply JsMap_set_fresh.
Qed.

(** X22.  As long as every attendance record is created under an id not
    yet in use, no request removes, replaces or reorders an attendance
    record: after any requests the attendance map is the earlier one
    followed by the records added since, so every record of a session
    stays in that session's attendance. *)
Theorem attendance_is_append_only rs :
  forall st,
    allDrawFreshIds rs st ->
    (exists added,
        MemStorage.attendance (Routes.serve rs st)
        = (MemStorage.attendance st ++ added)%list)
    /\ (forall sessionId record,
           In record (MemStorage.getAttendance sessionId st) ->
           In record (MemStorage.getAttendance sessionId (Routes.serve rs st))).
Proof.
  assert (Hmap : forall st,
             allDrawFreshIds rs st ->
             exists added,
               MemStorage.attendance (Routes.serve rs st)
               = (MemStorage.attendance st ++ added)%list).
  { induction rs as [|r rs IH]; simpl; intros st Hfresh.
    - exists []. now rewrite app_nil_r.
    - destruct Hfresh as [Hr Hrs].
      destruct (handle_appends_attendance st r Hr) as [a1 H1].
      destruct (IH _ Hrs) as [a2 H2].
      exists (a1 ++ a2)%list. now rewrite H2, H1, app_assoc. }
  intros st Hfresh. split; [now apply Hmap|].
  intros sessionId record Hin. destruct (Hmap st Hfresh) as [added Hadd].
  unfold MemStorage.getAttendance, JsMap.values in *.
  rewrite Hadd, map_app, filter_app. apply in_or_app. now left.
Qed.

Lemma attendance_is_append_only_witness :
  let body := Routes.VerifyBody.mk "A" "TK" "u1" None None None in
  let d := InsertAttendance.mk "A" "u2" absent None None None (Some "f1") in
  let st := Routes.serve
              [Routes.PostQRToken "k1" 0 (InsertQRToken.mk "A" "TK" 2000);
               Routes.VerifyQR 100 "id-1" 101 body] MemStorage.new in
  In (Attendance.mk "id-1" "A" "u1" present unknown None None None 101)
     (MemStorage.getAttendance
        "A" (Routes.serve [Routes.PostAttendance "id-2" 200 d;
                           Routes.CleanupTokens 5000;
                           Routes.VerifyQR 300 "id-3" 301 body] st)).
Proof.
  intros body d st.
  apply (proj2 (attendance_is_append_only
                  [Routes.PostAttendance "id-2" 200 d;
                   Routes.CleanupTokens 5000;
                   Routes.VerifyQR 300 "id-3" 301 body] st
                  ltac:(simpl; auto))).
  simpl. left. reflexivity.
Defined.
